(** * Calciomercato Social API: data-integrity and query-composition layer

    A shallow embedding of [main.py] and [schemas.py]: the request models,
    the four create handlers with their referential checks, and the four
    read handlers with their join pipelines and identifier flattening.

    Documents are Python dictionaries / BSON documents, modelled as finite
    maps from field names to values.  The handlers run in a small state and
    exception monad over the database handle [db] and a log of the store
    operations they issue. *)

From Stdlib Require Import ZArith NArith Ascii String List Bool.
From Stdlib.Floats Require Import SpecFloat.
From stdpp Require Import gmap strings list fin_maps.

Set Warnings "-register-all".
Local Open Scope string_scope.

(** ** Store identifiers ([bson.ObjectId]) *)

Module ObjectId.

(** An identifier is the byte string that the constructor reads from its
    spelling: twelve bytes for 24 hexadecimal digits, fewer when the 24
    characters include blanks.  It is kept here as a number: a string of
    twelve bytes as the number it spells, which is below 2^96, and a string
    of [k] bytes, [k <> 12], spelling [v] as [2^96 * (k + 1) + v], so that
    different byte strings are different numbers.  The identifiers that
    the store assigns are twelve bytes. *)
Definition t := N.

Definition hex_digit (n : N) : ascii :=
  if (n <? 10)%N then ascii_of_N (48 + n) else ascii_of_N (87 + n).

Definition hex_value (c : ascii) : option N :=
  let n := N_of_ascii c in
  if ((48 <=? n) && (n <=? 57))%N then Some (n - 48)%N
  else if ((97 <=? n) && (n <=? 102))%N then Some (n - 87)%N
  else if ((65 <=? n) && (n <=? 70))%N then Some (n - 55)%N
  else None.

Fixpoint hex_render (digits : nat) (n : N) : string :=
  match digits with
  | O => ""
  | S k => hex_render k (n / 16)%N ++ String (hex_digit (n mod 16)%N) ""
  end.

(** ASCII whitespace: tab, line feed, vertical tab, form feed, carriage
    return and space. *)
Definition is_space (c : ascii) : bool :=
  let n := N_of_ascii c in
  ((9 <=? n) && (n <=? 13) || (n =? 32))%N.

(** [bytes.fromhex(s)]: two hexadecimal digits per byte; whitespace before
    a byte and at the end is skipped, anything else is a [ValueError]. *)
Fixpoint fromhex (s : string) : option (list N) :=
  match s with
  | "" => Some []
  | String c rest =>
      if is_space c then fromhex rest
      else
        match hex_value c, rest with
        | Some top, String c' rest' =>
            match hex_value c', fromhex rest' with
            | Some bot, Some bs => Some ((16 * top + bot)%N :: bs)
            | _, _ => None
            end
        | _, _ => None
        end
  end.

(** The number that a byte string spells, most significant byte first. *)
Definition bytes_value (bs : list N) : N :=
  fold_left (fun acc b => 256 * acc + b)%N bs 0%N.

Definition of_bytes (bs : list N) : t :=
  if Nat.eqb (length bs) 12 then bytes_value bs
  else (2 ^ 96 * N.of_nat (S (length bs)) + bytes_value bs)%N.

Definition byte_length (oid : t) : nat :=
  if (oid <? 2 ^ 96)%N then 12%nat else Nat.pred (N.to_nat (oid / 2 ^ 96)).

(** [str(oid)]: the bytes in lower-case hexadecimal, 24 characters for an
    identifier of twelve bytes. *)
Definition str (oid : t) : string :=
  hex_render (2 * byte_length oid) (oid mod 2 ^ 96).

(** [ObjectId(s)]: the string must have 24 characters and [bytes.fromhex]
    must accept it; [None] stands for [InvalidId]. *)
Definition of_str (s : string) : option t :=
  if Nat.eqb (String.length s) 24 then of_bytes <$> fromhex s else None.

(** [ObjectId.is_valid(oid)]: a falsy argument is refused at once, any
    other is valid when the constructor accepts it. *)
Definition is_valid (oid : string) : bool :=
  match oid with
  | "" => false
  | _ => match of_str oid with Some _ => true | None => false end
  end.

End ObjectId.

(** ** Values and documents *)

Inductive value :=
| VNone
| VBool (b : bool)
| VInt (z : Z)
| VFloat (f : spec_float)
| VStr (s : string)
| VOid (oid : ObjectId.t)
| VList (l : list value)
| VDoc (d : gmap string value).

Abbreviation document := (gmap string value).

#[global] Instance spec_float_eq_dec : EqDecision spec_float.
Proof. solve_decision. Defined.

Fixpoint value_eq_dec (v1 v2 : value) {struct v1} : Decision (v1 = v2).
Proof.
  refine (match v1, v2 with
          | VNone, VNone => left eq_refl
          | VBool a, VBool b => cast_if (decide (a = b))
          | VInt a, VInt b => cast_if (decide (a = b))
          | VFloat a, VFloat b => cast_if (decide (a = b))
          | VStr a, VStr b => cast_if (decide (a = b))
          | VOid a, VOid b => cast_if (decide (a = b))
          | VList a, VList b => cast_if (@list_eq_dec _ value_eq_dec a b)
          | VDoc a, VDoc b => cast_if (@gmap_eq_dec _ _ _ _ value_eq_dec a b)
          | _, _ => right _
          end); congruence.
Defined.

#[global] Instance value_eqdec : EqDecision value := value_eq_dec.

(** A Python [float] is an IEEE double. *)
Definition float_of_Z (z : Z) : spec_float := binary_normalize 53 1024 z 0 false.

Definition float_zero : spec_float := S754_zero false.

(** Python truthiness ([if x], [not x]). *)
Definition py_truthy (v : value) : bool :=
  match v with
  | VNone => false
  | VBool b => b
  | VInt z => negb (z =? 0)%Z
  | VFloat f => negb (SFeqb f float_zero)
  | VStr s => negb (String.eqb s "")
  | VOid _ => true
  | VList l => match l with [] => false | _ => true end
  | VDoc d => negb (bool_decide (d = ∅))
  end.

Definition str_truthy (s : string) : bool := negb (String.eqb s "").

(** [needle in hay] on strings. *)
Fixpoint str_contains (needle hay : string) : bool :=
  String.prefix needle hay
  || match hay with
     | "" => false
     | String _ rest => str_contains needle rest
     end.

(** ** Comparison of BSON values, as the store's equality match does it *)

(** A double equal to an integer, compared exactly. *)
Definition float_eq_Z (f : spec_float) (z : Z) : bool :=
  match f with
  | S754_zero _ => (z =? 0)%Z
  | S754_finite s m e =>
      let zm := if s then Z.neg m else Z.pos m in
      if (0 <=? e)%Z then (z =? zm * 2 ^ e)%Z else (z * 2 ^ (- e) =? zm)%Z
  | _ => false
  end.

Definition is_nan (f : spec_float) : bool :=
  match f with S754_nan => true | _ => false end.

(** Values of different BSON types are never equal, except that the
    numeric types compare by value. *)
Definition bson_eq (a b : value) : bool :=
  match a, b with
  | VInt x, VFloat f => float_eq_Z f x
  | VFloat f, VInt x => float_eq_Z f x
  | VFloat f, VFloat g => SFeqb f g || (is_nan f && is_nan g)
  | _, _ => bool_decide (a = b)
  end.

(** The query [{field: v}] against a document whose [field] holds [fv]
    ([None] when the field is missing): a missing field matches only null,
    an array matches as a whole or through one of its elements. *)
Definition field_matches (fv : option value) (v : value) : bool :=
  match fv with
  | None => bson_eq VNone v
  | Some (VList l) => bson_eq (VList l) v || existsb (fun x => bson_eq x v) l
  | Some x => bson_eq x v
  end.

(** The equality match of [$lookup] between a local and a foreign field:
    a missing local field counts as null, an array matches through each of
    its elements. *)
Definition lookup_match (local foreign : option value) : bool :=
  match local with
  | None => field_matches foreign VNone
  | Some (VList l) => existsb (field_matches foreign) l
  | Some v => field_matches foreign v
  end.

(** ** The store *)

(** A database: named collections, each a sequence of documents in
    insertion order, and the next identifier the engine will assign (the
    engine hands out fresh identifiers; a counter stands for it).  A
    collection that was never written to is empty. *)
Record Database := {
  collections : gmap string (list document);
  next_oid : ObjectId.t
}.

Definition coll (D : Database) (name : string) : list document :=
  default [] (collections D !! name).

(** The operations a handler sends to the store. *)
Inductive db_op :=
| OpFindOne (collection : string) (oid : ObjectId.t)
| OpInsertOne (collection : string) (doc : document)
| OpFind (collection : string)
| OpAggregate (collection : string).

(** The module-level handle [db] is [None] when the store was not
    initialised; [trace] records the store operations issued so far. *)
Record World := {
  db : option Database;
  trace : list db_op
}.

Definition log (op : db_op) (w : World) : World :=
  {| db := db w; trace := (trace w ++ [op])%list |}.

(** ** Exceptions and the handler monad *)

Inductive exn :=
| HTTPException (status_code : Z) (detail : string)
| RequestValidationError (loc : string)
| TypeError
| AttributeError
| InvalidId
| DatabaseNotAvailable.

Definition M (A : Type) : Type := World -> (exn + A) * World.

#[global] Instance M_ret : MRet M := fun A a w => (inr a, w).

#[global] Instance M_bind : MBind M := fun A B k m w =>
  match m w with
  | (inl e, w') => (inl e, w')
  | (inr a, w') => k a w'
  end.

Definition raise {A : Type} (e : exn) : M A := fun w => (inl e, w).

(** Results of pure code that may raise. *)
Definition lift {A : Type} (r : exn + A) : M A := fun w => (r, w).

Fixpoint try_map {A B : Type} (f : A -> exn + B) (l : list A) : exn + list B :=
  match l with
  | [] => inr []
  | x :: rest =>
      match f x with
      | inl e => inl e
      | inr y =>
          match try_map f rest with
          | inl e => inl e
          | inr ys => inr (y :: ys)
          end
      end
  end.

(** ** Store primitives (pymongo) *)

(** The query [{"_id": oid}], on one document and on a collection. *)
Definition has_id (oid : ObjectId.t) (d : document) : bool :=
  field_matches (d !! "_id") (VOid oid).

Definition exists_in (D : Database) (c : string) (oid : ObjectId.t) : bool :=
  existsb (has_id oid) (coll D c).

(** [db[c].find_one({"_id": oid})]: subscripting a missing handle is a
    [TypeError]. *)
Definition find_one (c : string) (oid : ObjectId.t) : M (option document) :=
  fun w =>
    match db w with
    | None => (inl TypeError, w)
    | Some D => (inr (List.find (has_id oid) (coll D c)), log (OpFindOne c oid) w)
    end.

(** Aggregation stages used by the read handlers. *)
Inductive stage :=
| Lookup (from localField foreignField as_ : string)
| Unwind (path : string) (preserveNullAndEmptyArrays : bool).

(** A field path is written with a leading dollar sign. *)
Definition field_of_path (path : string) : string :=
  match path with
  | String "$" rest => rest
  | _ => path
  end.

Definition lookup_doc (D : Database) (from localField foreignField as_ : string)
    (d : document) : document :=
  <[as_ := VList (VDoc <$> List.filter
                    (fun f => lookup_match (d !! localField) (f !! foreignField))
                    (coll D from))]> d.

(** [$unwind]: one output document per array element; a missing, null or
    empty array drops the document unless
    [preserveNullAndEmptyArrays], in which case the document is kept (an
    empty array is removed from it); any other value is a single element. *)
Definition unwind_doc (field : string) (preserve : bool) (d : document)
    : list document :=
  match d !! field with
  | None => if preserve then [d] else []
  | Some VNone => if preserve then [d] else []
  | Some (VList []) => if preserve then [delete field d] else []
  | Some (VList l) => (fun x => <[field := x]> d) <$> l
  | Some _ => [d]
  end.

Definition run_stage (D : Database) (s : stage) (docs : list document)
    : list document :=
  match s with
  | Lookup from lf ff as_ => lookup_doc D from lf ff as_ <$> docs
  | Unwind path preserve =>
      concat (unwind_doc (field_of_path path) preserve <$> docs)
  end.

Definition run_pipeline (D : Database) (pipeline : list stage)
    (docs : list document) : list document :=
  fold_left (fun acc s => run_stage D s acc) pipeline docs.

(** [db[c].aggregate(pipeline)] *)
Definition aggregate (c : string) (pipeline : list stage) : M (list document) :=
  fun w =>
    match db w with
    | None => (inl TypeError, w)
    | Some D => (inr (run_pipeline D pipeline (coll D c)), log (OpAggregate c) w)
    end.

(** ** Document store adapter ([database.py]) *)

(** Modelled from the spec: [create_document] of [database.py], the adapter
    module that [main.py] imports.  It performs a single insert of the
    document into the named collection and returns the newly assigned
    identifier as a plain string; on an uninitialised store it fails with a
    store-unavailable condition. *)
Definition create_document (c : string) (data : document) : M string :=
  fun w =>
    match db w with
    | None => (inl DatabaseNotAvailable, w)
    | Some D =>
        let oid := next_oid D in
        let stored := <["_id" := VOid oid]> data in
        (inr (ObjectId.str oid),
         {| db := Some {| collections := <[c := (coll D c ++ [stored])%list]> (collections D);
                          next_oid := N.succ oid |};
            trace := (trace w ++ [OpInsertOne c stored])%list |})
    end.

(** Modelled from the spec: [get_documents] of [database.py].  It returns
    all documents of the named collection in insertion order with the
    storage-native identifier field still present; on an uninitialised
    store it fails with a store-unavailable condition. *)
Definition get_documents (c : string) : M (list document) :=
  fun w =>
    match db w with
    | None => (inl DatabaseNotAvailable, w)
    | Some D => (inr (coll D c), log (OpFind c) w)
    end.

(** ** Request validation (pydantic) *)

(** Validation of a request body either names the failing field or yields
    the model.  Fields are validated in lax mode: a [str] field takes a
    string only; an [int] field takes an integer, a boolean, a double
    without fraction or a string spelling an integer; a [float] field takes
    a double, a boolean, an integer that fits a double or a string spelling
    a number; a [List[str]] field takes an array of strings. *)

#[global] Instance sum_ret {E : Type} : MRet (sum E) := fun A a => inr a.

#[global] Instance sum_bind {E : Type} : MBind (sum E) := fun A B k m =>
  match m with
  | inl e => inl e
  | inr a => k a
  end.

Definition as_str (v : value) : option string :=
  match v with VStr s => Some s | _ => None end.

(** The conversions of lax mode between numbers and from strings. *)
Module Lax.

Fixpoint ltrim (s : string) : string :=
  match s with
  | String c rest => if ObjectId.is_space c then ltrim rest else s
  | "" => ""
  end.

Definition trim (s : string) : string :=
  String.rev (ltrim (String.rev (ltrim s))).

Definition digit_value (c : ascii) : option Z :=
  let n := N_of_ascii c in
  if ((48 <=? n) && (n <=? 57))%N then Some (Z.of_N (n - 48)) else None.

(** A run of decimal digits, with the number it spells after [acc] and
    what follows the run. *)
Fixpoint digits (s : string) (acc : Z) (count : nat) : Z * nat * string :=
  match s with
  | String c rest =>
      match digit_value c with
      | Some d => digits rest (10 * acc + d)%Z (S count)
      | None => (acc, count, s)
      end
  | "" => (acc, count, "")
  end.

(** An optional sign. *)
Definition sign (s : string) : bool * string :=
  match s with
  | String "+" rest => (false, rest)
  | String "-" rest => (true, rest)
  | _ => (false, s)
  end.

Definition signed (neg : bool) (z : Z) : Z := if neg then (- z)%Z else z.

Fixpoint all_zeros (s : string) : bool :=
  match s with
  | "" => true
  | String "0" rest => all_zeros rest
  | String _ _ => false
  end.

(** An integer literal: a sign, digits, and possibly a point followed by
    zeros only. *)
Definition int_literal (s : string) : option Z :=
  let '(neg, body) := sign s in
  match digits body 0 0 with
  | (_, O, _) => None
  | (z, _, "") => Some (signed neg z)
  | (z, _, String "." zeros) => if all_zeros zeros then Some (signed neg z) else None
  | _ => None
  end.

(** Underscores between the characters of a literal are dropped; one at
    either end, or two in a row, make the literal invalid. *)
Fixpoint drop_underscores (s : string) (after_underscore : bool) : option string :=
  match s with
  | "" => if after_underscore then None else Some ""
  | String "_" rest => if after_underscore then None else drop_underscores rest true
  | String c rest => String c <$> drop_underscores rest false
  end.

Definition strip_underscores (s : string) : option string :=
  drop_underscores s true.

Definition with_underscores {A : Type} (parse : string -> option A) (s : string)
    : option A :=
  match parse s with
  | Some a => Some a
  | None => match strip_underscores s with Some s' => parse s' | None => None end
  end.

Definition str_as_int (s : string) : option Z :=
  with_underscores int_literal (trim s).

(** The double nearest to [m * 10 ^ e], for [m] positive. *)
Definition decimal_to_float (neg : bool) (m e : Z) : spec_float :=
  if (m =? 0)%Z then S754_zero neg
  else if (0 <=? e)%Z then binary_normalize 53 1024 (signed neg (m * 10 ^ e)) 0 false
  else
    let d := (10 ^ (- e))%Z in
    let k := Z.max 0 (Z.log2 d - Z.log2 m + 64) in
    let q := (m * 2 ^ k / d)%Z in
    let sticky := if (m * 2 ^ k mod d =? 0)%Z then 0%Z else 1%Z in
    binary_normalize 53 1024 (signed neg (2 * q + sticky)) (- k - 1) false.

Definition lower (c : ascii) : ascii :=
  let n := N_of_ascii c in
  if ((65 <=? n) && (n <=? 90))%N then ascii_of_N (n + 32) else c.

Fixpoint lowercase (s : string) : string :=
  match s with
  | "" => ""
  | String c rest => String (lower c) (lowercase rest)
  end.

(** An exponent part, or nothing. *)
Definition exponent (s : string) : option Z :=
  match s with
  | "" => Some 0%Z
  | String c rest =>
      if String.eqb (String (lower c) "") "e" then
        let '(neg, body) := sign rest in
        match digits body 0 0 with
        | (_, O, _) => None
        | (z, _, "") => Some (signed neg z)
        | _ => None
        end
      else None
  end.

(** A float literal: a sign, then [inf], [infinity], [nan], or digits with
    an optional fraction and exponent. *)
Definition float_literal (s : string) : option spec_float :=
  let '(neg, body) := sign s in
  let word := lowercase body in
  if String.eqb word "inf" || String.eqb word "infinity" then Some (S754_infinity neg)
  else if String.eqb word "nan" then Some S754_nan
  else
    let '(int_part, int_count, rest) := digits body 0 0 in
    let '(mantissa, frac_count, rest') :=
      match rest with
      | String "." after =>
          let '(m, n, r) := digits after int_part 0 in (m, n, r)
      | _ => (int_part, O, rest)
      end in
    match (int_count + frac_count)%nat with
    | O => None
    | _ =>
        match exponent rest' with
        | Some e => Some (decimal_to_float neg mantissa (e - Z.of_nat frac_count))
        | None => None
        end
    end.

Definition str_as_float (s : string) : option spec_float :=
  with_underscores float_literal (trim s).

Definition is_finite (f : spec_float) : bool :=
  match f with S754_zero _ | S754_finite _ _ _ => true | _ => false end.

(** The integer a double equals, when it is finite and has no fraction. *)
Definition float_as_int (f : spec_float) : option Z :=
  match f with
  | S754_zero _ => Some 0%Z
  | S754_finite s m e =>
      let zm := if s then Z.neg m else Z.pos m in
      if (0 <=? e)%Z then Some (zm * 2 ^ e)%Z
      else if (zm mod 2 ^ (- e) =? 0)%Z then Some (zm / 2 ^ (- e))%Z
      else None
  | _ => None
  end.

(** [float(z)]: an integer too large for a double is an [OverflowError]. *)
Definition int_as_float (z : Z) : option spec_float :=
  let f := float_of_Z z in if is_finite f then Some f else None.

End Lax.

Definition as_int (v : value) : option Z :=
  match v with
  | VInt z => Some z
  | VBool b => Some (Z.b2z b)
  | VFloat f => Lax.float_as_int f
  | VStr s => Lax.str_as_int s
  | _ => None
  end.

Definition as_float (v : value) : option spec_float :=
  match v with
  | VInt z => Lax.int_as_float z
  | VBool b => Some (float_of_Z (Z.b2z b))
  | VFloat f => Some f
  | VStr s => Lax.str_as_float s
  | _ => None
  end.

Fixpoint as_strs (l : list value) : option (list string) :=
  match l with
  | [] => Some []
  | v :: rest =>
      match as_str v, as_strs rest with
      | Some s, Some ss => Some (s :: ss)
      | _, _ => None
      end
  end.

Definition as_str_list (v : value) : option (list string) :=
  match v with VList l => as_strs l | _ => None end.

(** A field declared without default: it must be present and convert. *)
Definition required {A : Type} (body : document) (field : string)
    (conv : value -> option A) : string + A :=
  match body !! field with
  | None => inl field
  | Some v => match conv v with Some a => inr a | None => inl field end
  end.

(** A field declared with a default and a non-optional type. *)
Definition defaulted {A : Type} (body : document) (field : string)
    (conv : value -> option A) (dflt : A) : string + A :=
  match body !! field with
  | None => inr dflt
  | Some v => match conv v with Some a => inr a | None => inl field end
  end.

(** An [Optional[...]] field with a default: an omitted field takes the
    default as it is written, a null is accepted as [None]. *)
Definition optional {A B : Type} (body : document) (field : string)
    (conv : value -> option A) (inj : option A -> B) (dflt : B) : string + B :=
  match body !! field with
  | None => inr dflt
  | Some VNone => inr (inj None)
  | Some v => match conv v with Some a => inr (inj (Some a)) | None => inl field end
  end.

(** A declared constraint ([ge], [le]) on a validated field. *)
Definition constrain {A : Type} (field : string) (ok : A -> bool)
    (r : string + A) : string + A :=
  match r with
  | inr a => if ok a then inr a else inl field
  | inl e => inl e
  end.

Definition opt_ok {A : Type} (ok : A -> bool) (o : option A) : bool :=
  match o with Some a => ok a | None => true end.

Definition int_ge (lo z : Z) : bool := (lo <=? z)%Z.
Definition int_le (hi z : Z) : bool := (z <=? hi)%Z.
Definition float_ge0 (f : spec_float) : bool := SFleb float_zero f.

(** A field annotated [float] may still hold its integer default. *)
Inductive number :=
| Int (z : Z)
| Float (f : spec_float).

Definition number_ge0 (n : number) : bool :=
  match n with Int z => int_ge 0 z | Float f => float_ge0 f end.

Definition of_number (n : number) : value :=
  match n with Int z => VInt z | Float f => VFloat f end.

Definition of_opt {A : Type} (inj : A -> value) (o : option A) : value :=
  match o with Some a => inj a | None => VNone end.

Definition of_strs (l : list string) : value := VList (VStr <$> l).

Module PlayerIn.

Record t := {
  name : string;
  position : string;
  age : option Z;
  nationality : option string;
  current_club_id : option string;
  height_cm : option Z;
  preferred_foot : option string;
  bio : option string;
  skills : option (list string);
  market_value : option spec_float
}.

Definition validate (body : document) : string + t :=
  name ← required body "name" as_str;
  position ← required body "position" as_str;
  age ← optional body "age" as_int id None;
  nationality ← optional body "nationality" as_str id None;
  current_club_id ← optional body "current_club_id" as_str id None;
  height_cm ← optional body "height_cm" as_int id None;
  preferred_foot ← optional body "preferred_foot" as_str id None;
  bio ← optional body "bio" as_str id None;
  skills ← optional body "skills" as_str_list id (Some []);
  market_value ← optional body "market_value" as_float id None;
  mret {| name := name; position := position; age := age;
          nationality := nationality; current_club_id := current_club_id;
          height_cm := height_cm; preferred_foot := preferred_foot;
          bio := bio; skills := skills; market_value := market_value |}.

Definition model_dump (p : t) : document :=
  list_to_map
    [("name", VStr (name p)); ("position", VStr (position p));
     ("age", of_opt VInt (age p));
     ("nationality", of_opt VStr (nationality p));
     ("current_club_id", of_opt VStr (current_club_id p));
     ("height_cm", of_opt VInt (height_cm p));
     ("preferred_foot", of_opt VStr (preferred_foot p));
     ("bio", of_opt VStr (bio p));
     ("skills", of_opt of_strs (skills p));
     ("market_value", of_opt VFloat (market_value p))].

End PlayerIn.

Module ClubIn.

Record t := {
  name : string;
  league : option string;
  country : option string;
  budget : option number;
  stadium : option string;
  bio : option string
}.

Definition validate (body : document) : string + t :=
  name ← required body "name" as_str;
  league ← optional body "league" as_str id None;
  country ← optional body "country" as_str id None;
  budget ← optional body "budget" as_float (fmap Float) (Some (Int 0));
  stadium ← optional body "stadium" as_str id None;
  bio ← optional body "bio" as_str id None;
  mret {| name := name; league := league; country := country;
          budget := budget; stadium := stadium; bio := bio |}.

Definition model_dump (c : t) : document :=
  list_to_map
    [("name", VStr (name c)); ("league", of_opt VStr (league c));
     ("country", of_opt VStr (country c));
     ("budget", of_opt of_number (budget c));
     ("stadium", of_opt VStr (stadium c));
     ("bio", of_opt VStr (bio c))].

End ClubIn.

Module ListingIn.

Record t := {
  player_id : string;
  from_club_id : option string;
  asking_price : spec_float;
  status : string
}.

Definition validate (body : document) : string + t :=
  player_id ← required body "player_id" as_str;
  from_club_id ← optional body "from_club_id" as_str id None;
  asking_price ← required body "asking_price" as_float;
  status ← defaulted body "status" as_str "open";
  mret {| player_id := player_id; from_club_id := from_club_id;
          asking_price := asking_price; status := status |}.

Definition model_dump (l : t) : document :=
  list_to_map
    [("player_id", VStr (player_id l));
     ("from_club_id", of_opt VStr (from_club_id l));
     ("asking_price", VFloat (asking_price l));
     ("status", VStr (status l))].

End ListingIn.

Module OfferIn.

Record t := {
  listing_id : string;
  club_id : string;
  offer_amount : spec_float;
  status : string;
  message : option string
}.

Definition validate (body : document) : string + t :=
  listing_id ← required body "listing_id" as_str;
  club_id ← required body "club_id" as_str;
  offer_amount ← required body "offer_amount" as_float;
  status ← defaulted body "status" as_str "pending";
  message ← optional body "message" as_str id None;
  mret {| listing_id := listing_id; club_id := club_id;
          offer_amount := offer_amount; status := status;
          message := message |}.

Definition model_dump (o : t) : document :=
  list_to_map
    [("listing_id", VStr (listing_id o)); ("club_id", VStr (club_id o));
     ("offer_amount", VFloat (offer_amount o));
     ("status", VStr (status o));
     ("message", of_opt VStr (message o))].

End OfferIn.

(** ** Collection schemas ([schemas.py])

    The collection schemas declare the same fields as the request models
    of [main.py], with bounds on the numeric fields.  [main.py] does not
    import them. *)

Module Schemas.

Definition Player (body : document) : string + PlayerIn.t :=
  name ← required body "name" as_str;
  position ← required body "position" as_str;
  age ← constrain "age" (opt_ok (fun z => int_ge 8 z && int_le 60 z))
        (optional body "age" as_int id None);
  nationality ← optional body "nationality" as_str id None;
  current_club_id ← optional body "current_club_id" as_str id None;
  height_cm ← constrain "height_cm"
                (opt_ok (fun z => int_ge 100 z && int_le 230 z))
                (optional body "height_cm" as_int id None);
  preferred_foot ← optional body "preferred_foot" as_str id None;
  bio ← optional body "bio" as_str id None;
  skills ← optional body "skills" as_str_list id (Some []);
  market_value ← constrain "market_value" (opt_ok float_ge0)
                   (optional body "market_value" as_float id None);
  mret {| PlayerIn.name := name; PlayerIn.position := position;
          PlayerIn.age := age; PlayerIn.nationality := nationality;
          PlayerIn.current_club_id := current_club_id;
          PlayerIn.height_cm := height_cm;
          PlayerIn.preferred_foot := preferred_foot; PlayerIn.bio := bio;
          PlayerIn.skills := skills; PlayerIn.market_value := market_value |}.

Definition Club (body : document) : string + ClubIn.t :=
  name ← required body "name" as_str;
  league ← optional body "league" as_str id None;
  country ← optional body "country" as_str id None;
  budget ← constrain "budget" (opt_ok number_ge0)
             (optional body "budget" as_float (fmap Float) (Some (Int 0)));
  stadium ← optional body "stadium" as_str id None;
  bio ← optional body "bio" as_str id None;
  mret {| ClubIn.name := name; ClubIn.league := league;
          ClubIn.country := country; ClubIn.budget := budget;
          ClubIn.stadium := stadium; ClubIn.bio := bio |}.

Definition Transferlisting (body : document) : string + ListingIn.t :=
  player_id ← required body "player_id" as_str;
  from_club_id ← optional body "from_club_id" as_str id None;
  asking_price ← constrain "asking_price" float_ge0
                   (required body "asking_price" as_float);
  status ← defaulted body "status" as_str "open";
  mret {| ListingIn.player_id := player_id;
          ListingIn.from_club_id := from_club_id;
          ListingIn.asking_price := asking_price;
          ListingIn.status := status |}.

Definition Transferoffer (body : document) : string + OfferIn.t :=
  listing_id ← required body "listing_id" as_str;
  club_id ← required body "club_id" as_str;
  offer_amount ← constrain "offer_amount" float_ge0
                   (required body "offer_amount" as_float);
  status ← defaulted body "status" as_str "pending";
  message ← optional body "message" as_str id None;
  mret {| OfferIn.listing_id := listing_id; OfferIn.club_id := club_id;
          OfferIn.offer_amount := offer_amount; OfferIn.status := status;
          OfferIn.message := message |}.

End Schemas.

(** ** Handlers of [main.py] *)

(** [{"id": new_id}] *)
Definition id_response (new_id : string) : document := {["id" := VStr new_id]}.

(** [db[c].find_one({"_id": ObjectId(s)})]: the handle is subscripted
    before the identifier is built. *)
Definition find_one_by_id (c : string) (s : string) : M (option document) :=
  fun w =>
    match db w with
    | None => (inl TypeError, w)
    | Some _ =>
        match ObjectId.of_str s with
        | None => (inl InvalidId, w)
        | Some oid => find_one c oid w
        end
    end.

(** Truthiness of what [find_one] returns: [None] and the empty document
    are falsy. *)
Definition found (r : option document) : bool :=
  match r with
  | None => false
  | Some d => py_truthy (VDoc d)
  end.

Definition opt_str_truthy (o : option string) : bool :=
  match o with Some s => str_truthy s | None => false end.

Definition opt_str_valid (o : option string) : bool :=
  match o with Some s => ObjectId.is_valid s | None => false end.

Definition create_player (player : PlayerIn.t) : M document :=
  new_id ← create_document "player" (PlayerIn.model_dump player);
  mret (id_response new_id).

Definition create_club (club : ClubIn.t) : M document :=
  new_id ← create_document "club" (ClubIn.model_dump club);
  mret (id_response new_id).

Definition create_listing (listing : ListingIn.t) : M document :=
  if negb (ObjectId.is_valid (ListingIn.player_id listing)) then
    raise (HTTPException 400 "Invalid player_id")
  else if opt_str_truthy (ListingIn.from_club_id listing)
          && negb (opt_str_valid (ListingIn.from_club_id listing)) then
    raise (HTTPException 400 "Invalid from_club_id")
  else
    player ← find_one_by_id "player" (ListingIn.player_id listing);
    if negb (found player) then
      raise (HTTPException 404 "Player not found")
    else
      new_id ← create_document "transferlisting" (ListingIn.model_dump listing);
      mret (id_response new_id).

Definition create_offer (offer : OfferIn.t) : M document :=
  if negb (ObjectId.is_valid (OfferIn.listing_id offer))
     || negb (ObjectId.is_valid (OfferIn.club_id offer)) then
    raise (HTTPException 400 "Invalid ids")
  else
    listing ← find_one_by_id "transferlisting" (OfferIn.listing_id offer);
    if negb (found listing) then
      raise (HTTPException 404 "Listing not found")
    else
      club ← find_one_by_id "club" (OfferIn.club_id offer);
      if negb (found club) then
        raise (HTTPException 404 "Club not found")
      else
        new_id ← create_document "transferoffer" (OfferIn.model_dump offer);
        mret (id_response new_id).

(** The routes: the body is validated into the handler's model first; a
    body the model refuses is answered with a validation error and the
    handler does not run. *)
Definition route {A : Type} (validate : document -> string + A)
    (handler : A -> M document) (body : document) : M document :=
  match validate body with
  | inl loc => raise (RequestValidationError loc)
  | inr model => handler model
  end.

Definition POST_players : document -> M document := route PlayerIn.validate create_player.
Definition POST_clubs : document -> M document := route ClubIn.validate create_club.
Definition POST_listings : document -> M document := route ListingIn.validate create_listing.
Definition POST_offers : document -> M document := route OfferIn.validate create_offer.

Definition listings_pipeline : list stage :=
  [Lookup "player" "player_id" "_id" "player";
   Unwind "$player" false;
   Lookup "club" "from_club_id" "_id" "from_club";
   Unwind "$from_club" true].

Definition offers_pipeline : list stage :=
  [Lookup "transferlisting" "listing_id" "_id" "listing";
   Unwind "$listing" false;
   Lookup "club" "club_id" "_id" "club";
   Unwind "$club" false].

Section Serialization.

(** Python's [str] on values that are neither strings nor identifiers
    (numbers, lists, dictionaries) is a parameter of the development. *)
Variable py_repr : value -> string.

Definition py_str (v : value) : string :=
  match v with
  | VStr s => s
  | VOid oid => ObjectId.str oid
  | _ => py_repr v
  end.

Definition serialize (doc : document) : document :=
  if negb (py_truthy (VDoc doc)) then doc
  else
    match doc !! "_id" with
    | Some v => <["id" := VStr (py_str v)]> (delete "_id" doc)
    | None => doc
    end.

(** The flattening of one joined sub-document,
    [if key in d and "_id" in d[key]: d[key]["id"] = str(d[key].pop("_id"))],
    with the truthiness test on [d[key]] in between when [guarded].
    [in] on a value that is no container, and [pop] on one that is no
    dictionary, raise. *)
Definition flatten_joined (key : string) (guarded : bool) (d : document)
    : exn + document :=
  match d !! key with
  | None => inr d
  | Some v =>
      if guarded && negb (py_truthy v) then inr d
      else
        match v with
        | VDoc sub =>
            match sub !! "_id" with
            | Some i =>
                inr (<[key := VDoc (<["id" := VStr (py_str i)]> (delete "_id" sub))]> d)
            | None => inr d
            end
        | VStr s => if str_contains "_id" s then inl AttributeError else inr d
        | VList l =>
            if existsb (fun x => bool_decide (x = VStr "_id")) l
            then inl TypeError else inr d
        | _ => inl TypeError
        end
  end.

Definition list_players : M (list document) :=
  docs ← get_documents "player";
  mret (serialize <$> docs).

Definition list_clubs : M (list document) :=
  docs ← get_documents "club";
  mret (serialize <$> docs).

Definition listing_view (d : document) : exn + document :=
  d ← flatten_joined "player" false (serialize d);
  flatten_joined "from_club" true d.

Definition list_listings : M (list document) :=
  docs ← aggregate "transferlisting" listings_pipeline;
  lift (try_map listing_view docs).

Definition offer_view (d : document) : exn + document :=
  d ← flatten_joined "listing" false (serialize d);
  flatten_joined "club" false d.

Definition list_offers : M (list document) :=
  docs ← aggregate "transferoffer" offers_pipeline;
  lift (try_map offer_view docs).

End Serialization.

(** ** Sample data *)

Definition empty_db : Database := {| collections := ∅; next_oid := 1%N |}.

Definition fresh_world : World := {| db := Some empty_db; trace := [] |}.

Definition no_repr (_ : value) : string := "".

Definition roma : document := {["name" := VStr "Roma"]}.

Definition player_x : document :=
  <["name" := VStr "X"]> {["position" := VStr "Forward"]}.

Definition listing_body (player_id : string) (from_club_id : value) : document :=
  <["player_id" := VStr player_id]>
    (<["from_club_id" := from_club_id]> {["asking_price" := VInt 1000]}).

Definition response_id (r : document) : string :=
  match r !! "id" with Some (VStr s) => s | _ => "" end.

(** Club, player, listing referring to both, then the listing view. *)
Definition round_trip (py_repr : value -> string)
    : M (string * string * string * list document) :=
  c ← POST_clubs roma;
  p ← POST_players player_x;
  l ← POST_listings (listing_body (response_id p) (VStr (response_id c)));
  view ← list_listings py_repr;
  mret (response_id c, response_id p, response_id l, view).

Definition id1 : string := "000000000000000000000001".
Definition id2 : string := "000000000000000000000002".
Definition id9 : string := "000000000000000000000009".

(** The fresh store after one player was created; its identifier is [id1]. *)
Definition world_with_player : World := snd (POST_players player_x fresh_world).

(** The store after a player ([id1]), a club ([id2]) and a listing of the
    player (the third identifier) were created. *)
Definition world_with_listing : World :=
  snd (POST_listings (listing_body id1 VNone)
         (snd (POST_clubs roma world_with_player))).

Definition sample_listing (player_id : string) (from_club_id : option string)
    : ListingIn.t :=
  {| ListingIn.player_id := player_id; ListingIn.from_club_id := from_club_id;
     ListingIn.asking_price := float_of_Z 1000; ListingIn.status := "open" |}.

Definition sample_offer (listing_id club_id : string) : OfferIn.t :=
  {| OfferIn.listing_id := listing_id; OfferIn.club_id := club_id;
     OfferIn.offer_amount := float_of_Z 500; OfferIn.status := "pending";
     OfferIn.message := None |}.

Definition id3 : string := "000000000000000000000003".

Definition offer_body (listing_id club_id : string) : document :=
  <["listing_id" := VStr listing_id]>
    (<["club_id" := VStr club_id]> {["offer_amount" := VInt 500]}).

(** A player of five years of age. *)
Definition player_aged_5 : document := <["age" := VInt 5]> player_x.

(** A listing whose status is none of open, under_review, closed. *)
Definition listing_sold (player_id : string) : document :=
  <["status" := VStr "sold"]> (listing_body player_id VNone).

(** ** Vocabulary of the properties *)

(** Every identifier the handler checks the format of is well formed. *)
Definition listing_ids_well_formed (listing : ListingIn.t) : bool :=
  ObjectId.is_valid (ListingIn.player_id listing)
  && (negb (opt_str_truthy (ListingIn.from_club_id listing))
      || opt_str_valid (ListingIn.from_club_id listing)).

Definition offer_ids_well_formed (offer : OfferIn.t) : bool :=
  ObjectId.is_valid (OfferIn.listing_id offer)
  && ObjectId.is_valid (OfferIn.club_id offer).

(** A run of existence lookups, followed by at most one insert. *)
Fixpoint lookups_then_write (ops : list db_op) : bool :=
  match ops with
  | [] => true
  | OpFindOne _ _ :: rest => lookups_then_write rest
  | [OpInsertOne _ _] => true
  | _ => false
  end.

(** The reference fields of listings and offers. *)
Definition reference_fields : list string :=
  ["player_id"; "from_club_id"; "listing_id"; "club_id"].

Definition joins_reference_to_id (s : stage) : bool :=
  match s with
  | Lookup _ localField foreignField _ =>
      bool_decide (localField ∈ reference_fields) && String.eqb foreignField "_id"
  | Unwind _ _ => true
  end.

(** The run from [w] to [w'] appended [stored] to the collection [c]. *)
Definition appended (c : string) (stored : document) (w w' : World) : Prop :=
  exists D D',
    db w = Some D /\ db w' = Some D' /\
    coll D' c = (coll D c ++ [stored])%list.

(** [out] is [raw] with its storage-native identifier, when it has one,
    replaced by a string under ["id"], and every other field as it was. *)
Definition flattened (py_repr : value -> string) (raw out : document) : Prop :=
  out !! "_id" = None /\
  match raw !! "_id" with
  | Some v => out !! "id" = Some (VStr (py_str py_repr v))
  | None => out !! "id" = raw !! "id"
  end /\
  forall k, k <> "_id" -> k <> "id" -> out !! k = raw !! k.

(** The same for a joined view: the document itself is flattened, and so
    is the sub-document under each joined key. *)
Definition joined_flattened (py_repr : value -> string) (joined : list string)
    (raw out : document) : Prop :=
  out !! "_id" = None /\
  match raw !! "_id" with
  | Some v => out !! "id" = Some (VStr (py_str py_repr v))
  | None => out !! "id" = raw !! "id"
  end /\
  (forall k, k <> "_id" -> k <> "id" -> k ∉ joined -> out !! k = raw !! k) /\
  (forall k, k ∈ joined ->
     match raw !! k with
     | Some (VDoc sub) =>
         exists sub', out !! k = Some (VDoc sub') /\ flattened py_repr sub sub'
     | other => out !! k = other
     end).

Definition has_native_id (d : document) : bool :=
  match d !! "_id" with Some _ => true | None => false end.

(** The document, or one of its joined sub-documents, still carries the
    storage-native identifier field. *)
Definition exposes_native_id (joined : list string) (d : document) : bool :=
  has_native_id d
  || existsb (fun k => match d !! k with
                       | Some (VDoc sub) => has_native_id sub
                       | _ => false
                       end) joined.

(** The field is missing or holds a sub-document. *)
Definition doc_or_absent (k : string) (d : document) : Prop :=
  match d !! k with
  | None => True
  | Some (VDoc _) => True
  | Some _ => False
  end.

(** A [$lookup] stage followed by the [$unwind] of its output field. *)
Definition join (D : Database) (from localField as_ : string) (preserve : bool)
    (docs : list document) : list document :=
  concat (unwind_doc as_ preserve <$> (lookup_doc D from localField "_id" as_ <$> docs)).

(** A store whose listing refers to its player and club by identifier. *)
Definition joined_db : Database :=
  {| collections :=
       <["player" := [<["_id" := VOid 1%N]> player_x]]>
         (<["club" := [<["_id" := VOid 2%N]> roma]]>
            {["transferlisting" :=
                [<["_id" := VOid 3%N]>
                   (<["player_id" := VOid 1%N]>
                      (<["from_club_id" := VOid 2%N]>
                         {["status" := VStr "open"]}))]]});
     next_oid := 4%N |}.

Definition joined_world : World := {| db := Some joined_db; trace := [] |}.

(** The documents of a collection, none when the store is missing. *)
Definition stored_docs (w : World) (c : string) : list document :=
  match db w with
  | Some D => coll D c
  | None => []
  end.

(** A club with a negative budget. *)
Definition club_in_debt : document := <["budget" := VInt (-1)]> roma.

(** A store holding one player, and a listing document that refers to the
    player by the string of its identifier. *)
Definition player_db : Database :=
  {| collections := {["player" := [<["_id" := VOid 1%N]> player_x]]};
     next_oid := 2%N |}.

Definition listing_of_player_1 : document :=
  <["player_id" := VStr id1]> {["status" := VStr "open"]}.

(** ** Vocabulary of the further properties *)

(** The bytes of [n], most significant first. *)
Fixpoint to_bytes (k : nat) (n : N) : list N :=
  match k with
  | O => []
  | S k' => to_bytes k' (n / 256)%N ++ [(n mod 256)%N]
  end.

Fixpoint hexlify (bs : list N) : string :=
  match bs with
  | [] => ""
  | b :: rest =>
      String (ObjectId.hex_digit (b / 16)%N)
        (String (ObjectId.hex_digit (b mod 16)%N) (hexlify rest))
  end.

(** The database after [create_document c data]. *)
Definition insert_doc (D : Database) (c : string) (data : document) : Database :=
  {| collections :=
       <[c := (coll D c ++ [<["_id" := VOid (next_oid D)]> data])%list]> (collections D);
     next_oid := N.succ (next_oid D) |}.

(** The documents of [from] whose [_id] matches the field [lf] of [d]. *)
Definition matching (D : Database) (from lf : string) (d : document)
    : list document :=
  List.filter (fun f => lookup_match (d !! lf) (f !! "_id")) (coll D from).

(** The rows of the listing view that come from one listing. *)
Definition listing_rows (D : Database) (d : document) : list document :=
  concat ((fun p =>
             let row := <["player" := VDoc p]> d in
             match matching D "club" "from_club_id" d with
             | [] => [delete "from_club" row]
             | clubs => (fun c => <["from_club" := VDoc c]> row) <$> clubs
             end) <$> matching D "player" "player_id" d).

(** The rows of the offer view that come from one offer. *)
Definition offer_rows (D : Database) (d : document) : list document :=
  concat ((fun l =>
             (fun c => <["club" := VDoc c]> (<["listing" := VDoc l]> d))
               <$> matching D "club" "club_id" d)
            <$> matching D "transferlisting" "listing_id" d).

(** The requests of the API. *)
Inductive request :=
| PostPlayer (body : document)
| PostClub (body : document)
| PostListing (body : document)
| PostOffer (body : document)
| GetPlayers
| GetClubs
| GetListings
| GetOffers.

(** The state after a request was served. *)
Definition serve (py_repr : value -> string) (r : request) (w : World) : World :=
  match r with
  | PostPlayer body => snd (POST_players body w)
  | PostClub body => snd (POST_clubs body w)
  | PostListing body => snd (POST_listings body w)
  | PostOffer body => snd (POST_offers body w)
  | GetPlayers => snd (list_players py_repr w)
  | GetClubs => snd (list_clubs py_repr w)
  | GetListings => snd (list_listings py_repr w)
  | GetOffers => snd (list_offers py_repr w)
  end.

Definition serve_all (py_repr : value -> string) (rs : list request) (w : World)
    : World :=
  fold_left (fun w r => serve py_repr r w) rs w.

Definition keyed_by_oid (d : document) : Prop :=
  exists oid, d !! "_id" = Some (VOid oid).

Definition string_at (field : string) (d : document) : Prop :=
  exists s, d !! field = Some (VStr s).

(** What holds of a database that only the create handlers wrote to. *)
Definition written_by_api (D : Database) : Prop :=
  Forall keyed_by_oid (coll D "player")
  /\ Forall keyed_by_oid (coll D "transferlisting")
  /\ Forall (string_at "player_id") (coll D "transferlisting")
  /\ Forall (string_at "listing_id") (coll D "transferoffer").

(** The bounds that [schemas.py] declares on a player. *)
Definition age_ok (z : Z) : bool := int_ge 8 z && int_le 60 z.
Definition height_ok (z : Z) : bool := int_ge 100 z && int_le 230 z.

(** The models that [player_x] and [roma] validate to. *)
Definition sample_player : PlayerIn.t :=
  {| PlayerIn.name := "X"; PlayerIn.position := "Forward"; PlayerIn.age := None;
     PlayerIn.nationality := None; PlayerIn.current_club_id := None;
     PlayerIn.height_cm := None; PlayerIn.preferred_foot := None;
     PlayerIn.bio := None; PlayerIn.skills := Some [];
     PlayerIn.market_value := None |}.

Definition sample_club : ClubIn.t :=
  {| ClubIn.name := "Roma"; ClubIn.league := None; ClubIn.country := None;
     ClubIn.budget := Some (Int 0); ClubIn.stadium := None; ClubIn.bio := None |}.

Definition id4 : string := "000000000000000000000004".

(** A state whose store handle was never initialised. *)
Definition no_store : World := {| db := None; trace := [] |}.

(** Club, player, listing of the player, offer of the club, then the
    listing view. *)
Definition sample_session : list request :=
  [PostClub roma; PostPlayer player_x;
   PostListing (listing_body id2 (VStr id1));
   PostOffer (offer_body id3 id1);
   GetListings].

(** A string of 24 blanks. *)
Definition blanks24 : string := "                        ".

(** A store operation that writes. *)
Definition is_write (op : db_op) : bool :=
  match op with
  | OpInsertOne _ _ => true
  | _ => false
  end.

(** The collections that the listings pipeline reads hold the same
    documents in both databases, in whatever order. *)
Definition same_documents (D D' : Database) : Prop :=
  coll D' "transferlisting" ≡ₚ coll D "transferlisting"
  /\ coll D' "player" ≡ₚ coll D "player"
  /\ coll D' "club" ≡ₚ coll D "club".

(** Two players, a club and a listing of each player, referring by
    identifier; and the same documents in another order. *)
Definition league_players : list document :=
  [<["_id" := VOid 1%N]> player_x;
   <["_id" := VOid 2%N]> (<["name" := VStr "Y"]> player_x)].

Definition league_listings : list document :=
  [<["_id" := VOid 4%N]>
     (<["player_id" := VOid 1%N]>
        (<["from_club_id" := VOid 3%N]> {["status" := VStr "open"]}));
   <["_id" := VOid 5%N]>
     (<["player_id" := VOid 2%N]>
        (<["from_club_id" := VNone]> {["status" := VStr "closed"]}))].

Definition league_db_of (players listings : list document) : Database :=
  {| collections :=
       <["player" := players]>
         (<["club" := [<["_id" := VOid 3%N]> roma]]>
            {["transferlisting" := listings]});
     next_oid := 6%N |}.

Definition league_db : Database := league_db_of league_players league_listings.

Definition league_db_reordered : Database :=
  league_db_of (reverse league_players) (reverse league_listings).

Definition league_world : World := {| db := Some league_db; trace := [] |}.

Definition league_world_reordered : World :=
  {| db := Some league_db_reordered; trace := [] |}.

(** * Properties *)

(** ** Identifiers and matching *)

Lemma is_valid_of_str (s : string) :
  ObjectId.is_valid s = true <-> is_Some (ObjectId.of_str s).
Proof.
  destruct s as [|c s].
  - split; [discriminate | intros [x Hx]; discriminate].
  - unfold ObjectId.is_valid.
    destruct (ObjectId.of_str (String c s)); split; eauto;
      first [discriminate | intros [x Hx]; discriminate].
Qed.

(** A string never equals an identifier. *)
Lemma bson_eq_str_oid (s : string) (oid : ObjectId.t) :
  bson_eq (VStr s) (VOid oid) = false /\ bson_eq (VOid oid) (VStr s) = false.
Proof. split; reflexivity. Qed.

Lemma lookup_match_str_oid (s : string) (oid : ObjectId.t) :
  lookup_match (Some (VStr s)) (Some (VOid oid)) = false.
Proof. reflexivity. Qed.

(** Sample identifiers: upper-case digits are accepted, and the string of
    an identifier reads back as the identifier. *)
Example is_valid_samples :
  ObjectId.is_valid id1 = true
  /\ ObjectId.is_valid "ABCDEFabcdef012345678901" = true
  /\ ObjectId.is_valid "not-an-id" = false
  /\ ObjectId.is_valid "" = false
  /\ ObjectId.of_str (ObjectId.str 255%N) = Some 255%N.
Proof. repeat split; reflexivity. Qed.

(** Blanks count for the length and are skipped when the bytes are read:
    24 blanks are a well-formed identifier, of no bytes, which equals no
    identifier of the store.  As a [player_id] it is looked up and not
    found; as a [from_club_id] it passes the format check and the listing is
    written. *)
Example blank_identifiers :
  ObjectId.is_valid blanks24 = true
  /\ ObjectId.is_valid "00 00 00 00 00 00 00 00 " = true
  /\ ObjectId.is_valid "0 0000000000000000000000" = false
  /\ (ObjectId.str <$> ObjectId.of_str blanks24) = Some ""
  /\ fst (create_listing (sample_listing blanks24 None) world_with_player)
     = inl (HTTPException 404 "Player not found")
  /\ length (trace (snd (create_listing (sample_listing blanks24 None) world_with_player)))
     = S (length (trace world_with_player))
  /\ fst (create_listing (sample_listing id1 (Some blanks24)) world_with_player)
     = inr (id_response id2).
Proof. repeat split; vm_compute; reflexivity. Qed.

(** Lax conversions of numbers: what an [int] and a [float] field take. *)
Example lax_conversions :
  as_int (VStr "5") = Some 5%Z
  /\ as_int (VStr " -12 ") = Some (-12)%Z
  /\ as_int (VStr "5.0") = Some 5%Z
  /\ as_int (VStr "5.5") = None
  /\ as_int (VBool true) = Some 1%Z
  /\ as_int (VFloat (float_of_Z 7)) = Some 7%Z
  /\ as_int (VFloat (S754_finite false 3 (-1))) = None
  /\ as_float (VInt (2 ^ 1024)) = None
  /\ as_float (VInt 1000) = Some (float_of_Z 1000)
  /\ as_float (VStr "1e3") = Some (float_of_Z 1000)
  /\ as_float (VStr "0.1") = Some (S754_finite false 7205759403792794 (-56))
  /\ as_float (VStr "abc") = None.
Proof. repeat split; vm_compute; reflexivity. Qed.

Lemma has_id_nonempty (oid : ObjectId.t) (d : document) :
  has_id oid d = true -> py_truthy (VDoc d) = true.
Proof.
  unfold has_id. intros H. simpl. apply negb_true_iff, bool_decide_eq_false.
  intros ->. rewrite lookup_empty in H. discriminate.
Qed.

Lemma found_find (oid : ObjectId.t) (l : list document) :
  found (List.find (has_id oid) l) = existsb (has_id oid) l.
Proof.
  induction l as [|d l IH]; [reflexivity |].
  simpl. destruct (has_id oid d) eqn:E; [| exact IH].
  unfold found. apply (has_id_nonempty _ _ E).
Qed.

(** ** The create handlers, path by path *)

Lemma create_document_run (c : string) (data : document) (w : World)
    (D : Database) :
  db w = Some D ->
  create_document c data w =
    (inr (ObjectId.str (next_oid D)),
     {| db := Some {| collections :=
                        <[c := (coll D c ++ [<["_id" := VOid (next_oid D)]> data])%list]>
                          (collections D);
                      next_oid := N.succ (next_oid D) |};
        trace := (trace w ++ [OpInsertOne c (<["_id" := VOid (next_oid D)]> data)])%list |}).
Proof. intros HD. unfold create_document. rewrite HD. reflexivity. Qed.

Lemma coll_insert_eq (D : Database) (c : string) (l : list document) (n : ObjectId.t) :
  coll {| collections := <[c := l]> (collections D); next_oid := n |} c = l.
Proof. unfold coll. simpl. rewrite lookup_insert_eq. reflexivity. Qed.

(** What [create_listing] does, as one equation. *)
Lemma create_listing_eq (listing : ListingIn.t) (w : World) :
  create_listing listing w =
    if negb (ObjectId.is_valid (ListingIn.player_id listing)) then
      (inl (HTTPException 400 "Invalid player_id"), w)
    else if opt_str_truthy (ListingIn.from_club_id listing)
            && negb (opt_str_valid (ListingIn.from_club_id listing)) then
      (inl (HTTPException 400 "Invalid from_club_id"), w)
    else
      match db w, ObjectId.of_str (ListingIn.player_id listing) with
      | None, _ => (inl TypeError, w)
      | Some _, None => (inl InvalidId, w)
      | Some D, Some oid =>
          let w1 := log (OpFindOne "player" oid) w in
          if exists_in D "player" oid then
            match create_document "transferlisting" (ListingIn.model_dump listing) w1 with
            | (inl e, w2) => (inl e, w2)
            | (inr new_id, w2) => (inr (id_response new_id), w2)
            end
          else (inl (HTTPException 404 "Player not found"), w1)
      end.
Proof.
  unfold create_listing.
  destruct (negb (ObjectId.is_valid _)); [reflexivity |].
  destruct (_ && _); [reflexivity |].
  unfold mbind, M_bind, find_one_by_id, find_one.
  destruct (db w) as [D|] eqn:HD; [| reflexivity].
  destruct (ObjectId.of_str _) as [oid|]; [| reflexivity].
  simpl. rewrite found_find. fold (exists_in D "player" oid).
  destruct (exists_in D "player" oid); reflexivity.
Qed.

(** What [create_offer] does, as one equation. *)
Lemma create_offer_eq (offer : OfferIn.t) (w : World) :
  create_offer offer w =
    if negb (ObjectId.is_valid (OfferIn.listing_id offer))
       || negb (ObjectId.is_valid (OfferIn.club_id offer)) then
      (inl (HTTPException 400 "Invalid ids"), w)
    else
      match db w, ObjectId.of_str (OfferIn.listing_id offer) with
      | None, _ => (inl TypeError, w)
      | Some _, None => (inl InvalidId, w)
      | Some D, Some lid =>
          let w1 := log (OpFindOne "transferlisting" lid) w in
          if exists_in D "transferlisting" lid then
            match ObjectId.of_str (OfferIn.club_id offer) with
            | None => (inl InvalidId, w1)
            | Some cid =>
                let w2 := log (OpFindOne "club" cid) w1 in
                if exists_in D "club" cid then
                  match create_document "transferoffer" (OfferIn.model_dump offer) w2 with
                  | (inl e, w3) => (inl e, w3)
                  | (inr new_id, w3) => (inr (id_response new_id), w3)
                  end
                else (inl (HTTPException 404 "Club not found"), w2)
            end
          else (inl (HTTPException 404 "Listing not found"), w1)
      end.
Proof.
  unfold create_offer.
  destruct (_ || _); [reflexivity |].
  unfold mbind, M_bind, find_one_by_id, find_one.
  destruct (db w) as [D|] eqn:HD; [| reflexivity].
  destruct (ObjectId.of_str (OfferIn.listing_id offer)) as [lid|]; [| reflexivity].
  simpl. rewrite found_find. fold (exists_in D "transferlisting" lid).
  destruct (exists_in D "transferlisting" lid); [| reflexivity].
  simpl. rewrite HD.
  destruct (ObjectId.of_str (OfferIn.club_id offer)) as [cid|]; [| reflexivity].
  simpl. rewrite found_find. fold (exists_in D "club" cid).
  destruct (exists_in D "club" cid); reflexivity.
Qed.

(** ** Reference fields are stored as strings *)

(** C3: every document written by [POST /listings] and [POST /offers]
    carries an identifier-typed [_id] and keeps its reference fields as the
    strings the client sent; the [$lookup] stages of both read pipelines
    join those fields against [_id], and a string never matches an
    identifier. *)
Theorem references_stored_as_strings :
  (forall listing w r w', create_listing listing w = (inr r, w') ->
     exists D D' stored,
       db w = Some D /\ db w' = Some D' /\
       coll D' "transferlisting" = (coll D "transferlisting" ++ [stored])%list /\
       stored !! "_id" = Some (VOid (next_oid D)) /\
       stored !! "player_id" = Some (VStr (ListingIn.player_id listing)) /\
       stored !! "from_club_id" = Some (of_opt VStr (ListingIn.from_club_id listing))) /\
  (forall offer w r w', create_offer offer w = (inr r, w') ->
     exists D D' stored,
       db w = Some D /\ db w' = Some D' /\
       coll D' "transferoffer" = (coll D "transferoffer" ++ [stored])%list /\
       stored !! "_id" = Some (VOid (next_oid D)) /\
       stored !! "listing_id" = Some (VStr (OfferIn.listing_id offer)) /\
       stored !! "club_id" = Some (VStr (OfferIn.club_id offer))) /\
  forallb joins_reference_to_id (listings_pipeline ++ offers_pipeline)%list = true /\
  (forall s oid, bson_eq (VStr s) (VOid oid) = false) /\
  (forall s oid, lookup_match (Some (VStr s)) (Some (VOid oid)) = false).
Proof.
  split; [| split; [| split; [reflexivity | split; reflexivity]]].
  - intros listing w r w' H. rewrite create_listing_eq in H.
    destruct (negb _); [discriminate |].
    destruct (_ && _); [discriminate |].
    destruct (db w) as [D|] eqn:HD; [| discriminate].
    destruct (ObjectId.of_str _) as [oid|]; [| discriminate].
    simpl in H. destruct (exists_in D "player" oid); [| discriminate].
    rewrite (create_document_run _ _ _ D) in H by exact HD.
    inversion H; subst; clear H.
    eexists D, _, _. split; [reflexivity |]. split; [reflexivity |].
    split; [apply coll_insert_eq |].
    split; [apply lookup_insert_eq |]. split; reflexivity.
  - intros offer w r w' H. rewrite create_offer_eq in H.
    destruct (_ || _); [discriminate |].
    destruct (db w) as [D|] eqn:HD; [| discriminate].
    destruct (ObjectId.of_str (OfferIn.listing_id offer)) as [lid|]; [| discriminate].
    simpl in H. destruct (exists_in D "transferlisting" lid); [| discriminate].
    destruct (ObjectId.of_str (OfferIn.club_id offer)) as [cid|]; [| discriminate].
    destruct (exists_in D "club" cid); [| discriminate].
    rewrite (create_document_run _ _ _ D) in H by exact HD.
    inversion H; subst; clear H.
    eexists D, _, _. split; [reflexivity |]. split; [reflexivity |].
    split; [apply coll_insert_eq |].
    split; [apply lookup_insert_eq |]. split; reflexivity.
Qed.

Lemma references_stored_as_strings_witness :
  exists D D' stored,
    db world_with_player = Some D /\
    db (snd (create_listing (sample_listing id1 None) world_with_player)) = Some D' /\
    coll D' "transferlisting" = (coll D "transferlisting" ++ [stored])%list /\
    stored !! "_id" = Some (VOid (next_oid D)) /\
    stored !! "player_id" = Some (VStr id1) /\
    stored !! "from_club_id" = Some VNone.
Proof.
  apply (proj1 references_stored_as_strings (sample_listing id1 None)
           world_with_player (id_response id2)).
  vm_compute. reflexivity.
Defined.

(** ** Order of the checks *)

Lemma create_listing_ops (listing : ListingIn.t) (w : World) :
  exists ops,
    trace (snd (create_listing listing w)) = (trace w ++ ops)%list /\
    lookups_then_write ops = true /\
    (listing_ids_well_formed listing = false ->
     ops = [] /\
     exists detail, fst (create_listing listing w) = inl (HTTPException 400 detail)).
Proof.
  rewrite create_listing_eq. unfold listing_ids_well_formed.
  destruct (ObjectId.is_valid _); simpl;
    [| exists []; rewrite app_nil_r; eauto].
  destruct (opt_str_truthy _); simpl;
    [destruct (opt_str_valid _); simpl;
       [| exists []; rewrite app_nil_r; eauto] |].
  all: destruct (db w) as [D|] eqn:HD;
    [| exists []; rewrite app_nil_r; repeat split; discriminate].
  all: destruct (ObjectId.of_str _) as [oid|];
    [| exists []; rewrite app_nil_r; repeat split; discriminate].
  all: destruct (exists_in D "player" oid);
    [| exists [OpFindOne "player" oid]; repeat split; discriminate].
  all: rewrite (create_document_run _ _ _ D) by exact HD; simpl.
  all: eexists [OpFindOne "player" oid; OpInsertOne "transferlisting" _].
  all: rewrite <- app_assoc; repeat split; discriminate.
Qed.

Lemma create_offer_ops (offer : OfferIn.t) (w : World) :
  exists ops,
    trace (snd (create_offer offer w)) = (trace w ++ ops)%list /\
    lookups_then_write ops = true /\
    (offer_ids_well_formed offer = false ->
     ops = [] /\
     exists detail, fst (create_offer offer w) = inl (HTTPException 400 detail)).
Proof.
  rewrite create_offer_eq. unfold offer_ids_well_formed.
  destruct (ObjectId.is_valid (OfferIn.listing_id offer)); simpl;
    [| exists []; rewrite app_nil_r; eauto].
  destruct (ObjectId.is_valid (OfferIn.club_id offer)); simpl;
    [| exists []; rewrite app_nil_r; eauto].
  destruct (db w) as [D|] eqn:HD;
    [| exists []; rewrite app_nil_r; repeat split; discriminate].
  destruct (ObjectId.of_str (OfferIn.listing_id offer)) as [lid|];
    [| exists []; rewrite app_nil_r; repeat split; discriminate].
  destruct (exists_in D "transferlisting" lid);
    [| exists [OpFindOne "transferlisting" lid]; repeat split; discriminate].
  destruct (ObjectId.of_str (OfferIn.club_id offer)) as [cid|];
    [| exists [OpFindOne "transferlisting" lid]; repeat split; discriminate].
  destruct (exists_in D "club" cid);
    [| exists [OpFindOne "transferlisting" lid; OpFindOne "club" cid];
       simpl; rewrite <- app_assoc; repeat split; discriminate].
  rewrite (create_document_run _ _ _ D) by exact HD; simpl.
  eexists [OpFindOne "transferlisting" lid; OpFindOne "club" cid;
           OpInsertOne "transferoffer" _].
  rewrite <- !app_assoc; repeat split; discriminate.
Qed.

(** C5: a listing whose [player_id] is malformed is rejected as an invalid
    format without a single store operation; in every run of
    [create_listing] and [create_offer] the store operations are existence
    lookups followed by at most one insert, and there is none at all when an
    identifier fails the format check. *)
Theorem format_check_precedes_lookup :
  (forall listing w,
     ObjectId.is_valid (ListingIn.player_id listing) = false ->
     create_listing listing w = (inl (HTTPException 400 "Invalid player_id"), w)) /\
  (forall listing w, exists ops,
     trace (snd (create_listing listing w)) = (trace w ++ ops)%list /\
     lookups_then_write ops = true /\
     (listing_ids_well_formed listing = false ->
      ops = [] /\
      exists detail, fst (create_listing listing w) = inl (HTTPException 400 detail))) /\
  (forall offer w, exists ops,
     trace (snd (create_offer offer w)) = (trace w ++ ops)%list /\
     lookups_then_write ops = true /\
     (offer_ids_well_formed offer = false ->
      ops = [] /\
      exists detail, fst (create_offer offer w) = inl (HTTPException 400 detail))).
Proof.
  split; [| split; [apply create_listing_ops | apply create_offer_ops]].
  intros listing w H. rewrite create_listing_eq, H. reflexivity.
Qed.

Lemma format_check_precedes_lookup_witness :
  create_listing (sample_listing "not-an-id" None) world_with_player
  = (inl (HTTPException 400 "Invalid player_id"), world_with_player).
Proof.
  apply (proj1 format_check_precedes_lookup (sample_listing "not-an-id" None)
           world_with_player).
  reflexivity.
Defined.

(** ** Naming the malformed identifier *)

(** The rejection of an offer does not determine which of its two
    identifiers was malformed. *)
Lemma offer_rejection_names_no_field :
  ~ exists field_of : exn -> string,
      forall offer w e,
        fst (create_offer offer w) = inl e ->
        (ObjectId.is_valid (OfferIn.listing_id offer) = false ->
         ObjectId.is_valid (OfferIn.club_id offer) = true ->
         field_of e = "listing_id") /\
        (ObjectId.is_valid (OfferIn.listing_id offer) = true ->
         ObjectId.is_valid (OfferIn.club_id offer) = false ->
         field_of e = "club_id").
Proof.
  intros [field_of H].
  pose proof (H (sample_offer "not-an-id" id1) fresh_world
                (HTTPException 400 "Invalid ids") eq_refl) as [H1 _].
  pose proof (H (sample_offer id1 "not-an-id") fresh_world
                (HTTPException 400 "Invalid ids") eq_refl) as [_ H2].
  specialize (H1 eq_refl eq_refl). specialize (H2 eq_refl eq_refl).
  rewrite H1 in H2. discriminate.
Qed.

(** A listing rejected for a malformed identifier names the field,
    [player_id] first and [from_club_id] when [player_id] is well formed and
    the club identifier is non-empty; an offer with a malformed
    [listing_id] or [club_id] is rejected with the one detail
    ["Invalid ids"]. *)
Lemma invalid_id_rejections :
  (forall listing w,
     ObjectId.is_valid (ListingIn.player_id listing) = false ->
     fst (create_listing listing w) = inl (HTTPException 400 "Invalid player_id")) /\
  (forall listing w,
     ObjectId.is_valid (ListingIn.player_id listing) = true ->
     opt_str_truthy (ListingIn.from_club_id listing) = true ->
     opt_str_valid (ListingIn.from_club_id listing) = false ->
     fst (create_listing listing w) = inl (HTTPException 400 "Invalid from_club_id")) /\
  (forall offer w,
     offer_ids_well_formed offer = false ->
     fst (create_offer offer w) = inl (HTTPException 400 "Invalid ids")).
Proof.
  split; [| split].
  - intros listing w H. rewrite create_listing_eq, H. reflexivity.
  - intros listing w H1 H2 H3. rewrite create_listing_eq, H1, H2, H3. reflexivity.
  - intros offer w H. rewrite create_offer_eq. unfold offer_ids_well_formed in H.
    destruct (ObjectId.is_valid (OfferIn.listing_id offer)); [| reflexivity].
    destruct (ObjectId.is_valid (OfferIn.club_id offer)); [discriminate | reflexivity].
Qed.

Lemma invalid_id_rejections_witness :
  fst (create_listing (sample_listing id1 (Some "not-an-id")) fresh_world)
  = inl (HTTPException 400 "Invalid from_club_id")
  /\ fst (create_offer (sample_offer id1 "not-an-id") fresh_world)
     = inl (HTTPException 400 "Invalid ids").
Proof.
  split.
  - apply (proj1 (proj2 invalid_id_rejections)); reflexivity.
  - apply (proj2 (proj2 invalid_id_rejections)); reflexivity.
Defined.

(** C4 fails on the code for offers: an offer with a malformed
    [listing_id] and an offer with a malformed [club_id] get the same
    response, ["Invalid ids"], which names neither field, while
    [create_listing] names the field that failed. *)
Theorem offer_rejection_hides_the_field :
  ObjectId.is_valid "not-an-id" = false /\ ObjectId.is_valid id1 = true /\
  create_offer (sample_offer "not-an-id" id1) fresh_world
  = (inl (HTTPException 400 "Invalid ids"), fresh_world) /\
  create_offer (sample_offer id1 "not-an-id") fresh_world
  = (inl (HTTPException 400 "Invalid ids"), fresh_world) /\
  create_listing (sample_listing "not-an-id" None) fresh_world
  = (inl (HTTPException 400 "Invalid player_id"), fresh_world) /\
  create_listing (sample_listing id1 (Some "not-an-id")) fresh_world
  = (inl (HTTPException 400 "Invalid from_club_id"), fresh_world).
Proof. repeat split; reflexivity. Qed.

(** ** Missing references *)






(** ** The optional club reference *)

(** C9, as stated, fails: a malformed non-empty [from_club_id] is not
    reported when the [player_id] is malformed too. *)
Lemma from_club_rejection_needs_valid_player :
  ~ forall listing w,
      fst (create_listing listing w) = inl (HTTPException 400 "Invalid from_club_id")
      <-> opt_str_truthy (ListingIn.from_club_id listing) = true
          /\ opt_str_valid (ListingIn.from_club_id listing) = false.
Proof.
  intros H.
  destruct (H (sample_listing "not-an-id" (Some "not-an-id")) fresh_world) as [_ H2].
  specialize (H2 (conj eq_refl eq_refl)). discriminate H2.
Qed.

(** C9, amended: [create_listing] rejects with ["Invalid from_club_id"]
    exactly when the [player_id] is well formed and the [from_club_id] is
    non-empty and malformed; an empty [from_club_id] is not checked, and
    with an existing player the listing is written with the empty string
    as its [from_club_id]. *)
Theorem from_club_id_rejection :
  (forall listing w,
     fst (create_listing listing w) = inl (HTTPException 400 "Invalid from_club_id")
     <-> ObjectId.is_valid (ListingIn.player_id listing) = true
         /\ opt_str_truthy (ListingIn.from_club_id listing) = true
         /\ opt_str_valid (ListingIn.from_club_id listing) = false) /\
  (forall listing w D oid,
     db w = Some D ->
     ListingIn.from_club_id listing = Some "" ->
     ObjectId.of_str (ListingIn.player_id listing) = Some oid ->
     exists_in D "player" oid = true ->
     exists D' stored,
       fst (create_listing listing w) = inr (id_response (ObjectId.str (next_oid D))) /\
       db (snd (create_listing listing w)) = Some D' /\
       coll D' "transferlisting" = (coll D "transferlisting" ++ [stored])%list /\
       stored !! "from_club_id" = Some (VStr "")).
Proof.
  split.
  - intros listing w. rewrite create_listing_eq. split.
    + destruct (ObjectId.is_valid _); simpl; [| discriminate].
      destruct (opt_str_truthy _); simpl.
      * destruct (opt_str_valid _); simpl; [| done].
        destruct (db w) as [D|] eqn:HD; [| discriminate].
        destruct (ObjectId.of_str _) as [oid|]; [| discriminate].
        destruct (exists_in D "player" oid); [| discriminate].
        rewrite (create_document_run _ _ _ D) by exact HD. discriminate.
      * destruct (db w) as [D|] eqn:HD; [| discriminate].
        destruct (ObjectId.of_str _) as [oid|]; [| discriminate].
        destruct (exists_in D "player" oid); [| discriminate].
        rewrite (create_document_run _ _ _ D) by exact HD. discriminate.
    + intros (-> & -> & ->). reflexivity.
  - intros listing w D oid HD Hfc Hoid Hex.
    assert (Hv : ObjectId.is_valid (ListingIn.player_id listing) = true)
      by (apply is_valid_of_str; eauto).
    rewrite create_listing_eq, Hv, Hfc, HD, Hoid. simpl. rewrite Hex.
    rewrite (create_document_run _ _ _ D) by exact HD. simpl.
    eexists _, _. split; [reflexivity |]. split; [reflexivity |].
    split; [apply coll_insert_eq |].
    destruct listing; simpl in *; subst. reflexivity.
Qed.

Lemma from_club_id_rejection_witness :
  exists D' stored,
    fst (create_listing (sample_listing id1 (Some "")) world_with_player)
    = inr (id_response id2) /\
    db (snd (create_listing (sample_listing id1 (Some "")) world_with_player))
    = Some D' /\
    coll D' "transferlisting" = [stored] /\
    stored !! "from_club_id" = Some (VStr "").
Proof.
  apply (proj2 from_club_id_rejection (sample_listing id1 (Some ""))
           world_with_player (default empty_db (db world_with_player)) 1%N);
    [vm_compute; reflexivity | reflexivity | reflexivity | vm_compute; reflexivity].
Defined.

(** ** Defaults of omitted fields *)

Ltac invert_validate H :=
  unfold PlayerIn.validate, ClubIn.validate, ListingIn.validate,
    OfferIn.validate, mbind, sum_bind, mret, sum_ret in H;
  repeat match type of H with
         | context [match ?x with inl _ => _ | inr _ => _ end] =>
             let E := fresh "E" in destruct x eqn:E; [discriminate H |]
         end;
  injection H as <-.

Lemma optional_omitted {A B : Type} (body : document) (field : string)
    (conv : value -> option A) (inj : option A -> B) (dflt b : B) :
  body !! field = None -> optional body field conv inj dflt = inr b -> b = dflt.
Proof. unfold optional. intros ->. congruence. Qed.

Lemma defaulted_omitted {A : Type} (body : document) (field : string)
    (conv : value -> option A) (dflt a : A) :
  body !! field = None -> defaulted body field conv dflt = inr a -> a = dflt.
Proof. unfold defaulted. intros ->. congruence. Qed.

Lemma player_skills_default (body : document) (p : PlayerIn.t) :
  body !! "skills" = None -> PlayerIn.validate body = inr p ->
  PlayerIn.skills p = Some [].
Proof.
  intros Hb H. invert_validate H. simpl. eapply optional_omitted; eauto.
Qed.

Lemma club_budget_default (body : document) (c : ClubIn.t) :
  body !! "budget" = None -> ClubIn.validate body = inr c ->
  ClubIn.budget c = Some (Int 0).
Proof.
  intros Hb H. invert_validate H. simpl. eapply optional_omitted; eauto.
Qed.

Lemma listing_status_default (body : document) (l : ListingIn.t) :
  body !! "status" = None -> ListingIn.validate body = inr l ->
  ListingIn.status l = "open".
Proof.
  intros Hb H. invert_validate H. simpl. eapply defaulted_omitted; eauto.
Qed.

Lemma offer_status_default (body : document) (o : OfferIn.t) :
  body !! "status" = None -> OfferIn.validate body = inr o ->
  OfferIn.status o = "pending".
Proof.
  intros Hb H. invert_validate H. simpl. eapply defaulted_omitted; eauto.
Qed.

Lemma create_document_appends (c : string) (data : document) (w w' : World)
    (new_id : string) :
  create_document c data w = (inr new_id, w') ->
  exists oid, appended c (<["_id" := VOid oid]> data) w w'.
Proof.
  intros H. destruct (db w) as [D|] eqn:HD.
  - rewrite (create_document_run _ _ _ D HD) in H. inversion H; subst.
    exists (next_oid D), D. eexists. split; [done |]. split; [reflexivity |].
    apply coll_insert_eq.
  - unfold create_document in H. rewrite HD in H. discriminate.
Qed.

Lemma create_player_appends (p : PlayerIn.t) (w w' : World) (r : document) :
  create_player p w = (inr r, w') ->
  exists oid, appended "player" (<["_id" := VOid oid]> (PlayerIn.model_dump p)) w w'.
Proof.
  unfold create_player, mbind, M_bind. intros H.
  destruct (create_document _ _ w) as [[e|new_id] w1] eqn:E; [discriminate |].
  inversion H; subst. eapply create_document_appends; eauto.
Qed.

Lemma create_club_appends (c : ClubIn.t) (w w' : World) (r : document) :
  create_club c w = (inr r, w') ->
  exists oid, appended "club" (<["_id" := VOid oid]> (ClubIn.model_dump c)) w w'.
Proof.
  unfold create_club, mbind, M_bind. intros H.
  destruct (create_document _ _ w) as [[e|new_id] w1] eqn:E; [discriminate |].
  inversion H; subst. eapply create_document_appends; eauto.
Qed.

Lemma create_listing_appends (l : ListingIn.t) (w w' : World) (r : document) :
  create_listing l w = (inr r, w') ->
  exists oid,
    appended "transferlisting" (<["_id" := VOid oid]> (ListingIn.model_dump l)) w w'.
Proof.
  intros H. rewrite create_listing_eq in H.
  destruct (negb _); [discriminate |].
  destruct (_ && _); [discriminate |].
  destruct (db w) as [D|] eqn:HD; [| discriminate].
  destruct (ObjectId.of_str _) as [oid|]; [| discriminate].
  simpl in H. destruct (exists_in D "player" oid); [| discriminate].
  rewrite (create_document_run _ _ _ D) in H by exact HD.
  inversion H; subst; clear H.
  exists (next_oid D), D. eexists. split; [done |]. split; [reflexivity |].
  apply coll_insert_eq.
Qed.

Lemma create_offer_appends (o : OfferIn.t) (w w' : World) (r : document) :
  create_offer o w = (inr r, w') ->
  exists oid,
    appended "transferoffer" (<["_id" := VOid oid]> (OfferIn.model_dump o)) w w'.
Proof.
  intros H. rewrite create_offer_eq in H.
  destruct (_ || _); [discriminate |].
  destruct (db w) as [D|] eqn:HD; [| discriminate].
  destruct (ObjectId.of_str (OfferIn.listing_id o)) as [lid|]; [| discriminate].
  simpl in H. destruct (exists_in D "transferlisting" lid); [| discriminate].
  destruct (ObjectId.of_str (OfferIn.club_id o)) as [cid|]; [| discriminate].
  destruct (exists_in D "club" cid); [| discriminate].
  rewrite (create_document_run _ _ _ D) in H by exact HD.
  inversion H; subst; clear H.
  exists (next_oid D), D. eexists. split; [done |]. split; [reflexivity |].
  apply coll_insert_eq.
Qed.

(** C8: when a create request omits a field that has a declared default,
    the document the request stores carries the default: no skills for a
    player, a budget of 0 for a club, the status ["open"] for a listing and
    ["pending"] for an offer. *)
Theorem omitted_fields_take_defaults :
  (forall body w r w',
     body !! "skills" = None -> POST_players body w = (inr r, w') ->
     exists stored,
       appended "player" stored w w' /\ stored !! "skills" = Some (VList [])) /\
  (forall body w r w',
     body !! "budget" = None -> POST_clubs body w = (inr r, w') ->
     exists stored,
       appended "club" stored w w' /\ stored !! "budget" = Some (VInt 0)) /\
  (forall body w r w',
     body !! "status" = None -> POST_listings body w = (inr r, w') ->
     exists stored,
       appended "transferlisting" stored w w' /\
       stored !! "status" = Some (VStr "open")) /\
  (forall body w r w',
     body !! "status" = None -> POST_offers body w = (inr r, w') ->
     exists stored,
       appended "transferoffer" stored w w' /\
       stored !! "status" = Some (VStr "pending")).
Proof.
  split; [| split; [| split]]; intros body w r w' Hb H.
  - unfold POST_players, route in H.
    destruct (PlayerIn.validate body) as [loc|p] eqn:V; [discriminate |].
    apply create_player_appends in H as [oid H].
    eexists. split; [exact H |].
    rewrite lookup_insert_ne by done.
    change (Some (of_opt of_strs (PlayerIn.skills p)) = Some (VList [])).
    rewrite (player_skills_default body p Hb V). reflexivity.
  - unfold POST_clubs, route in H.
    destruct (ClubIn.validate body) as [loc|c] eqn:V; [discriminate |].
    apply create_club_appends in H as [oid H].
    eexists. split; [exact H |].
    rewrite lookup_insert_ne by done.
    change (Some (of_opt of_number (ClubIn.budget c)) = Some (VInt 0)).
    rewrite (club_budget_default body c Hb V). reflexivity.
  - unfold POST_listings, route in H.
    destruct (ListingIn.validate body) as [loc|l] eqn:V; [discriminate |].
    apply create_listing_appends in H as [oid H].
    eexists. split; [exact H |].
    rewrite lookup_insert_ne by done.
    change (Some (VStr (ListingIn.status l)) = Some (VStr "open")).
    rewrite (listing_status_default body l Hb V). reflexivity.
  - unfold POST_offers, route in H.
    destruct (OfferIn.validate body) as [loc|o] eqn:V; [discriminate |].
    apply create_offer_appends in H as [oid H].
    eexists. split; [exact H |].
    rewrite lookup_insert_ne by done.
    change (Some (VStr (OfferIn.status o)) = Some (VStr "pending")).
    rewrite (offer_status_default body o Hb V). reflexivity.
Qed.

Lemma omitted_fields_take_defaults_witness :
  (exists stored,
     appended "player" stored fresh_world (snd (POST_players player_x fresh_world))
     /\ stored !! "skills" = Some (VList [])) /\
  (exists stored,
     appended "club" stored fresh_world (snd (POST_clubs roma fresh_world))
     /\ stored !! "budget" = Some (VInt 0)) /\
  (exists stored,
     appended "transferlisting" stored world_with_player
       (snd (POST_listings (listing_body id1 VNone) world_with_player))
     /\ stored !! "status" = Some (VStr "open")) /\
  (exists stored,
     appended "transferoffer" stored world_with_listing
       (snd (POST_offers (offer_body id3 id2) world_with_listing))
     /\ stored !! "status" = Some (VStr "pending")).
Proof.
  split; [| split; [| split]].
  - apply (proj1 omitted_fields_take_defaults player_x fresh_world (id_response id1));
      [reflexivity | vm_compute; reflexivity].
  - apply (proj1 (proj2 omitted_fields_take_defaults) roma fresh_world
             (id_response id1));
      [reflexivity | vm_compute; reflexivity].
  - apply (proj1 (proj2 (proj2 omitted_fields_take_defaults))
             (listing_body id1 VNone) world_with_player (id_response id2));
      [reflexivity | vm_compute; reflexivity].
  - apply (proj2 (proj2 (proj2 omitted_fields_take_defaults))
             (offer_body id3 id2) world_with_listing
             (id_response "000000000000000000000004"));
      [reflexivity | vm_compute; reflexivity].
Defined.

(** ** Reading the listings *)

Lemma list_listings_run (py_repr : value -> string) (w : World) :
  list_listings py_repr w =
    match db w with
    | None => (inl TypeError, w)
    | Some D =>
        (try_map (listing_view py_repr)
           (run_pipeline D listings_pipeline (coll D "transferlisting")),
         log (OpAggregate "transferlisting") w)
    end.
Proof.
  unfold list_listings, aggregate, mbind, M_bind, lift.
  destruct (db w); reflexivity.
Qed.

Lemma list_offers_run (py_repr : value -> string) (w : World) :
  list_offers py_repr w =
    match db w with
    | None => (inl TypeError, w)
    | Some D =>
        (try_map (offer_view py_repr)
           (run_pipeline D offers_pipeline (coll D "transferoffer")),
         log (OpAggregate "transferoffer") w)
    end.
Proof.
  unfold list_offers, aggregate, mbind, M_bind, lift.
  destruct (db w); reflexivity.
Qed.

(** ** Flattening of identifiers *)

Lemma serialize_flattened (py_repr : value -> string) (d : document) : flattened py_repr d (serialize py_repr d).
Proof.
  unfold serialize, flattened.
  destruct (negb (py_truthy (VDoc d))) eqn:T.
  - simpl in T. apply negb_true_iff, negb_false_iff, bool_decide_eq_true in T. subst.
    rewrite !lookup_empty. done.
  - destruct (d !! "_id") as [v|] eqn:E.
    + split; [rewrite lookup_insert_ne by done; apply lookup_delete_eq |].
      split; [apply lookup_insert_eq |].
      intros k H1 H2. rewrite lookup_insert_ne, lookup_delete_ne by done. done.
    + rewrite E. done.
Qed.

Lemma flattened_refl (py_repr : value -> string) (d : document) :
  d !! "_id" = None -> flattened py_repr d d.
Proof. intros H. unfold flattened. rewrite H. done. Qed.

Lemma flatten_joined_absent (py_repr : value -> string) (key : string)
    (guarded : bool) (d : document) :
  d !! key = None -> flatten_joined py_repr key guarded d = inr d.
Proof. unfold flatten_joined. intros ->. reflexivity. Qed.

Lemma flatten_joined_doc (py_repr : value -> string) (key : string)
    (guarded : bool) (d sub : document) :
  d !! key = Some (VDoc sub) ->
  exists sub',
    flatten_joined py_repr key guarded d = inr (<[key := VDoc sub']> d)
    /\ flattened py_repr sub sub'.
Proof.
  intros H. unfold flatten_joined. rewrite H.
  destruct (guarded && negb (py_truthy (VDoc sub))) eqn:G.
  - exists sub. rewrite insert_id by done. split; [done |].
    apply andb_true_iff in G as [_ G]. simpl in G.
    apply negb_true_iff, negb_false_iff, bool_decide_eq_true in G. subst.
    apply flattened_refl, lookup_empty.
  - destruct (sub !! "_id") as [i|] eqn:E.
    + eexists. split; [reflexivity |].
      split; [rewrite lookup_insert_ne by done; apply lookup_delete_eq |].
      rewrite E. split; [apply lookup_insert_eq |].
      intros k H1 H2. rewrite lookup_insert_ne, lookup_delete_ne by done. done.
    + exists sub. rewrite insert_id by done. split; [done |].
      by apply flattened_refl.
Qed.

(** The two-key views of the read handlers. *)
Lemma view_flattened (py_repr : value -> string) (k1 k2 : string)
    (g1 g2 : bool) (raw : document) :
  k1 <> k2 -> k1 <> "_id" -> k1 <> "id" -> k2 <> "_id" -> k2 <> "id" ->
  doc_or_absent k1 raw -> doc_or_absent k2 raw ->
  exists out,
    (d ← flatten_joined py_repr k1 g1 (serialize py_repr raw);
     flatten_joined py_repr k2 g2 d) = inr out
    /\ joined_flattened py_repr [k1; k2] raw out.
Proof.
  intros N12 N1 N1' N2 N2' S1 S2.
  destruct (serialize_flattened py_repr raw) as (F1 & F2 & F3).
  set (s := serialize py_repr raw) in *.
  assert (E1 : s !! k1 = raw !! k1) by (apply F3; done).
  assert (E2 : s !! k2 = raw !! k2) by (apply F3; done).
  unfold doc_or_absent in S1, S2.
  assert (Hd1 : exists d1, flatten_joined py_repr k1 g1 s = inr d1
            /\ d1 !! "_id" = None /\ d1 !! "id" = s !! "id"
            /\ (forall k, k <> k1 -> d1 !! k = s !! k)
            /\ match raw !! k1 with
               | Some (VDoc sub) =>
                   exists sub', d1 !! k1 = Some (VDoc sub') /\ flattened py_repr sub sub'
               | other => d1 !! k1 = other
               end).
  { destruct (raw !! k1) as [[| | | | | |l|sub]|] eqn:R1; try done.
    - destruct (flatten_joined_doc py_repr k1 g1 s sub E1) as (sub' & -> & Hf).
      eexists. split; [reflexivity |].
      rewrite !lookup_insert_ne by done. split; [done |]. split; [done |].
      split; [intros k Hk; by rewrite lookup_insert_ne |].
      exists sub'. by rewrite lookup_insert_eq.
    - exists s. rewrite flatten_joined_absent by done. done. }
  destruct Hd1 as (d1 & -> & D1 & D2 & D3 & D4). simpl.
  assert (E2' : d1 !! k2 = raw !! k2) by (rewrite D3 by done; done).
  destruct (raw !! k2) as [[| | | | | |l|sub]|] eqn:R2; try done.
  - destruct (flatten_joined_doc py_repr k2 g2 d1 sub E2') as (sub' & -> & Hf).
    eexists. split; [reflexivity |].
    split; [by rewrite lookup_insert_ne |].
    split; [rewrite lookup_insert_ne by done; rewrite D2; exact F2 |].
    split.
    + intros k Hk1 Hk2 Hk. apply not_elem_of_cons in Hk as [Hka Hk].
      apply not_elem_of_cons in Hk as [Hkb _].
      rewrite lookup_insert_ne, D3 by done. by apply F3.
    + intros k Hk. apply elem_of_cons in Hk as [-> | Hk].
      * rewrite lookup_insert_ne by done. exact D4.
      * apply list_elem_of_singleton in Hk as ->. rewrite R2.
        exists sub'. by rewrite lookup_insert_eq.
  - exists d1. rewrite flatten_joined_absent by done. split; [done |].
    split; [done |]. split; [rewrite D2; exact F2 |]. split.
    + intros k Hk1 Hk2 Hk. apply not_elem_of_cons in Hk as [Hka Hk].
      rewrite D3 by done. by apply F3.
    + intros k Hk. apply elem_of_cons in Hk as [-> | Hk].
      * exact D4.
      * apply list_elem_of_singleton in Hk as ->. rewrite R2. done.
Qed.

Lemma joined_flattened_hides (py_repr : value -> string) (joined : list string)
    (raw out : document) :
  joined_flattened py_repr joined raw out -> exposes_native_id joined out = false.
Proof.
  intros (H1 & _ & _ & H4). unfold exposes_native_id, has_native_id.
  rewrite H1. simpl.
  apply not_true_iff_false. intros Hex. apply existsb_exists in Hex as (k & Hk & Hx).
  apply list_elem_of_In in Hk. specialize (H4 k Hk).
  destruct (raw !! k) as [[| | | | | |l|sub]|]; try (rewrite H4 in Hx; discriminate).
  destruct H4 as (sub' & Ho & (Hs & _)). rewrite Ho, Hs in Hx. discriminate.
Qed.

Lemma try_map_Forall2 {A B : Type} (f : A -> exn + B) (P : A -> Prop)
    (R : A -> B -> Prop) (l : list A) :
  (forall x, P x -> exists y, f x = inr y /\ R x y) ->
  Forall P l ->
  exists ys, try_map f l = inr ys /\ Forall2 R l ys.
Proof.
  intros Hf. induction 1 as [|x l Hx _ IH].
  - exists []. split; [reflexivity | constructor].
  - destruct (Hf x Hx) as (y & Ey & Ry). destruct IH as (ys & Eys & Rys).
    exists (y :: ys). simpl. rewrite Ey, Eys. split; [reflexivity |].
    by constructor.
Qed.

(** ** Shape of the join pipelines *)

Lemma unwind_lookup_shape (D : Database) (from lf as_ : string) (preserve : bool)
    (d : document) :
  Forall (fun out => doc_or_absent as_ out
                     /\ forall k, k <> as_ -> out !! k = d !! k)
    (unwind_doc as_ preserve (lookup_doc D from lf "_id" as_ d)).
Proof.
  unfold lookup_doc, unwind_doc. rewrite lookup_insert_eq.
  destruct (List.filter _ (coll D from)) as [|f fs]; simpl.
  - destruct preserve; constructor; [| constructor].
    unfold doc_or_absent. rewrite lookup_delete_eq. split; [done |].
    intros k Hk. by rewrite lookup_delete_ne, lookup_insert_ne.
  - apply Forall_forall. intros out Hout.
    change (out ∈ (fun x => <[as_ := x]> (<[as_ := VList (VDoc f :: (VDoc <$> fs))]> d))
                   <$> (VDoc <$> (f :: fs))) in Hout.
    apply list_elem_of_fmap in Hout as (x & -> & Hx).
    apply list_elem_of_fmap in Hx as (g & -> & _).
    unfold doc_or_absent. rewrite lookup_insert_eq. split; [done |].
    intros k Hk. by rewrite !lookup_insert_ne.
Qed.

Lemma join_shape (D : Database) (from lf as_ : string) (preserve : bool)
    (docs : list document) :
  Forall (doc_or_absent as_) (join D from lf as_ preserve docs).
Proof.
  unfold join. induction docs as [|d docs IH]; [constructor |].
  simpl. apply Forall_app. split; [| exact IH].
  eapply Forall_impl; [apply unwind_lookup_shape |]. intros out [H _]. exact H.
Qed.

Lemma join_keeps (D : Database) (from lf as_ k : string) (preserve : bool)
    (docs : list document) :
  k <> as_ ->
  Forall (doc_or_absent k) docs ->
  Forall (doc_or_absent k) (join D from lf as_ preserve docs).
Proof.
  intros Hk. unfold join. induction 1 as [|d docs Hd _ IH]; [constructor |].
  simpl. apply Forall_app. split; [| exact IH].
  eapply Forall_impl; [apply unwind_lookup_shape |]. intros out [_ H].
  unfold doc_or_absent in *. by rewrite H.
Qed.

Lemma listings_pipeline_join (D : Database) (docs : list document) :
  run_pipeline D listings_pipeline docs
  = join D "club" "from_club_id" "from_club" true
      (join D "player" "player_id" "player" false docs).
Proof. reflexivity. Qed.

Lemma offers_pipeline_join (D : Database) (docs : list document) :
  run_pipeline D offers_pipeline docs
  = join D "club" "club_id" "club" false
      (join D "transferlisting" "listing_id" "listing" false docs).
Proof. reflexivity. Qed.

Lemma listings_pipeline_shape (D : Database) (docs : list document) :
  Forall (fun d => doc_or_absent "player" d /\ doc_or_absent "from_club" d)
    (run_pipeline D listings_pipeline docs).
Proof.
  rewrite listings_pipeline_join. apply Forall_and. split.
  - apply join_keeps; [done | apply join_shape].
  - apply join_shape.
Qed.

Lemma offers_pipeline_shape (D : Database) (docs : list document) :
  Forall (fun d => doc_or_absent "listing" d /\ doc_or_absent "club" d)
    (run_pipeline D offers_pipeline docs).
Proof.
  rewrite offers_pipeline_join. apply Forall_and. split.
  - apply join_keeps; [done | apply join_shape].
  - apply join_shape.
Qed.

Lemma Forall2_hides (py_repr : value -> string) (joined : list string)
    (raws outs : list document) :
  Forall2 (joined_flattened py_repr joined) raws outs ->
  Forall (fun d => exposes_native_id joined d = false) outs.
Proof.
  induction 1; constructor; eauto using joined_flattened_hides.
Qed.

Lemma serialize_hides (py_repr : value -> string) (d : document) :
  exposes_native_id [] (serialize py_repr d) = false.
Proof.
  destruct (serialize_flattened py_repr d) as (H & _).
  unfold exposes_native_id, has_native_id. rewrite H. reflexivity.
Qed.

Lemma listing_view_flattened (py_repr : value -> string) (raw : document) :
  doc_or_absent "player" raw /\ doc_or_absent "from_club" raw ->
  exists out,
    listing_view py_repr raw = inr out
    /\ joined_flattened py_repr ["player"; "from_club"] raw out.
Proof. intros [H1 H2]. apply view_flattened; done. Qed.

Lemma offer_view_flattened (py_repr : value -> string) (raw : document) :
  doc_or_absent "listing" raw /\ doc_or_absent "club" raw ->
  exists out,
    offer_view py_repr raw = inr out
    /\ joined_flattened py_repr ["listing"; "club"] raw out.
Proof. intros [H1 H2]. apply view_flattened; done. Qed.

(** C7: with the store available, every read endpoint answers, and no
    document it returns carries the storage-native identifier field,
    neither at top level nor inside a joined sub-document ([player],
    [from_club], [listing], [club]): the identifier is replaced by its
    string under ["id"] and every other field is as the store returned
    it. *)
Theorem native_id_never_exposed (py_repr : value -> string) (w : World)
    (D : Database) :
  db w = Some D ->
  (fst (list_players py_repr w) = inr (serialize py_repr <$> coll D "player") /\
   fst (list_clubs py_repr w) = inr (serialize py_repr <$> coll D "club") /\
   forall d, flattened py_repr d (serialize py_repr d)
             /\ exposes_native_id [] (serialize py_repr d) = false) /\
  (exists out,
     fst (list_listings py_repr w) = inr out /\
     Forall2 (joined_flattened py_repr ["player"; "from_club"])
       (run_pipeline D listings_pipeline (coll D "transferlisting")) out /\
     Forall (fun d => exposes_native_id ["player"; "from_club"] d = false) out) /\
  (exists out,
     fst (list_offers py_repr w) = inr out /\
     Forall2 (joined_flattened py_repr ["listing"; "club"])
       (run_pipeline D offers_pipeline (coll D "transferoffer")) out /\
     Forall (fun d => exposes_native_id ["listing"; "club"] d = false) out).
Proof.
  intros HD. split; [| split].
  - unfold list_players, list_clubs, get_documents, mbind, M_bind, mret, M_ret.
    rewrite HD. simpl. split; [reflexivity |]. split; [reflexivity |].
    intros d. split; [apply serialize_flattened | apply serialize_hides].
  - rewrite list_listings_run, HD. simpl.
    destruct (try_map_Forall2 _ _ _ _ (listing_view_flattened py_repr)
                (listings_pipeline_shape D (coll D "transferlisting")))
      as (out & E & F).
    exists out. split; [exact E |]. split; [exact F |]. eapply Forall2_hides, F.
  - rewrite list_offers_run, HD. simpl.
    destruct (try_map_Forall2 _ _ _ _ (offer_view_flattened py_repr)
                (offers_pipeline_shape D (coll D "transferoffer")))
      as (out & E & F).
    exists out. split; [exact E |]. split; [exact F |]. eapply Forall2_hides, F.
Qed.

Lemma native_id_never_exposed_witness :
  exists out,
    fst (list_listings no_repr joined_world) = inr out /\
    Forall2 (joined_flattened no_repr ["player"; "from_club"])
      (run_pipeline joined_db listings_pipeline (coll joined_db "transferlisting")) out /\
    Forall (fun d => exposes_native_id ["player"; "from_club"] d = false) out.
Proof.
  apply (proj1 (proj2 (native_id_never_exposed no_repr joined_world joined_db eq_refl))).
Defined.

(** On [joined_db] the listing view has one entry, with the player and the
    club nested and every identifier flattened. *)
Example joined_listing_view :
  List.map (fun d : document =>
              (d !! "id", d !! "_id",
               match d !! "player" with
               | Some (VDoc p) => (p !! "id", p !! "_id", p !! "name")
               | _ => (None, None, None)
               end,
               match d !! "from_club" with
               | Some (VDoc c) => (c !! "id", c !! "_id", c !! "name")
               | _ => (None, None, None)
               end))
    (match fst (list_listings no_repr joined_world) with
     | inr out => out
     | inl _ => []
     end)
  = [(Some (VStr id3), None,
      (Some (VStr id1), None, Some (VStr "X")),
      (Some (VStr id2), None, Some (VStr "Roma")))].
Proof. vm_compute. reflexivity. Qed.

(** ** The join on references written by the create handlers *)

Lemma string_reference_joins_nothing (D : Database) (from lf as_ : string)
    (d : document) (s : string) :
  d !! lf = Some (VStr s) ->
  Forall (fun f => exists oid, f !! "_id" = Some (VOid oid)) (coll D from) ->
  join D from lf as_ false [d] = [].
Proof.
  intros Hd Hids. unfold join, lookup_doc, unwind_doc. simpl.
  rewrite lookup_insert_eq, Hd.
  assert (E : List.filter (fun f => lookup_match (Some (VStr s)) (f !! "_id"))
                (coll D from) = []).
  { induction Hids as [|f fs [oid Hf] _ IH]; [reflexivity |].
    cbn [List.filter]. rewrite Hf, lookup_match_str_oid. exact IH. }
  rewrite E. reflexivity.
Qed.

(** C1 fails on the code: after a club, a player and a listing referring
    to both were created on an empty store, [GET /listings] returns no
    entry at all.  The listing keeps [player_id] as a string, every player
    is keyed by an identifier, and the join of the two is empty, on any
    store. *)
Theorem round_trip_listing_is_dropped (py_repr : value -> string) :
  fst (round_trip py_repr fresh_world) = inr (id1, id2, id3, []) /\
  (forall D d s,
     d !! "player_id" = Some (VStr s) ->
     Forall (fun f => exists oid, f !! "_id" = Some (VOid oid)) (coll D "player") ->
     run_pipeline D listings_pipeline [d] = []).
Proof.
  split; [vm_compute; reflexivity |].
  intros D d s Hd Hids. rewrite listings_pipeline_join.
  rewrite (string_reference_joins_nothing D "player" "player_id" "player" d s Hd Hids).
  reflexivity.
Qed.

Lemma round_trip_listing_is_dropped_witness :
  run_pipeline player_db listings_pipeline [listing_of_player_1] = [].
Proof.
  apply (proj2 (round_trip_listing_is_dropped no_repr) player_db
           listing_of_player_1 id1).
  - reflexivity.
  - constructor; [exists 1%N; reflexivity | constructor].
Defined.

(** ** Bounds and enumerations *)

(** C2 fails on the code: the request models of [main.py] carry none of
    the bounds that [schemas.py] declares and no model checks the status
    against its enumeration, so a player aged 5, a club with a negative
    budget and a listing with status ["sold"] are accepted and stored. *)
Theorem out_of_bounds_bodies_are_stored :
  (Schemas.Player player_aged_5 = inl "age" /\
   fst (POST_players player_aged_5 fresh_world) = inr (id_response id1) /\
   List.map (fun d : document => d !! "age")
     (stored_docs (snd (POST_players player_aged_5 fresh_world)) "player")
   = [Some (VInt 5)]) /\
  (Schemas.Club club_in_debt = inl "budget" /\
   fst (POST_clubs club_in_debt fresh_world) = inr (id_response id1) /\
   List.map (fun d : document => d !! "budget")
     (stored_docs (snd (POST_clubs club_in_debt fresh_world)) "club")
   = [Some (VFloat (float_of_Z (-1)))]) /\
  (fst (POST_listings (listing_sold id1) world_with_player) = inr (id_response id2) /\
   List.map (fun d : document => d !! "status")
     (stored_docs (snd (POST_listings (listing_sold id1) world_with_player))
        "transferlisting")
   = [Some (VStr "sold")]).
Proof. repeat split; vm_compute; reflexivity. Qed.

(** * Further properties *)

(** ** Identifiers: rendering and reading back *)

Lemma hex_value_digit (d : N) :
  (d < 16)%N -> ObjectId.hex_value (ObjectId.hex_digit d) = Some d.
Proof.
  intros H. rewrite <- (N2Nat.id d).
  assert (Hn : (N.to_nat d < 16)%nat) by lia.
  destruct (N.to_nat d) as [|n]; [reflexivity |].
  do 15 (destruct n as [|n]; [reflexivity |]). lia.
Qed.

Lemma hex_digit_no_space (d : N) :
  (d < 16)%N -> ObjectId.is_space (ObjectId.hex_digit d) = false.
Proof.
  intros H. rewrite <- (N2Nat.id d).
  assert (Hn : (N.to_nat d < 16)%nat) by lia.
  destruct (N.to_nat d) as [|n]; [reflexivity |].
  do 15 (destruct n as [|n]; [reflexivity |]). lia.
Qed.

Lemma string_app_assoc (s1 s2 s3 : string) : (s1 ++ s2) ++ s3 = s1 ++ (s2 ++ s3).
Proof.
  induction s1 as [|c s1 IH]; [reflexivity |].
  change (String c ((s1 ++ s2) ++ s3) = String c (s1 ++ (s2 ++ s3))).
  by rewrite IH.
Qed.

Lemma string_app_cons (c : ascii) (s1 s2 : string) :
  String c s1 ++ s2 = String c (s1 ++ s2).
Proof. reflexivity. Qed.

Lemma hexlify_app (l1 l2 : list N) :
  hexlify (l1 ++ l2) = hexlify l1 ++ hexlify l2.
Proof.
  induction l1 as [|b l1 IH]; [reflexivity |].
  cbn [hexlify app]. rewrite IH, !string_app_cons. reflexivity.
Qed.

Lemma hex_render_two (m : nat) (n : N) :
  ObjectId.hex_render (S (S m)) n
  = ObjectId.hex_render m (n / 256)%N
    ++ String (ObjectId.hex_digit ((n mod 256) / 16)%N)
         (String (ObjectId.hex_digit ((n mod 256) mod 16)%N) "").
Proof.
  cbn [ObjectId.hex_render]. rewrite string_app_assoc, N.Div0.div_div.
  change (16 * 16)%N with 256%N. rewrite string_app_cons.
  change ("" ++ String (ObjectId.hex_digit (n mod 16)%N) "")
    with (String (ObjectId.hex_digit (n mod 16)%N) "").
  do 3 f_equal.
  - change 256%N with (16 * 16)%N. rewrite (N.Div0.mod_mul_r n 16 16).
    rewrite N.mul_comm, N.div_add by lia.
    rewrite (N.div_small (n mod 16) 16) by (apply N.mod_lt; lia). reflexivity.
  - change 256%N with (16 * 16)%N. rewrite (N.Div0.mod_mul_r n 16 16).
    rewrite (N.mul_comm 16), N.Div0.mod_add, N.Div0.mod_mod. reflexivity.
Qed.

Lemma hex_render_bytes (k : nat) (n : N) :
  ObjectId.hex_render (2 * k) n = hexlify (to_bytes k n).
Proof.
  revert n. induction k as [|k IH]; intros n; [reflexivity |].
  replace (2 * S k)%nat with (S (S (2 * k))) by lia.
  rewrite hex_render_two, IH. cbn [to_bytes]. rewrite hexlify_app. reflexivity.
Qed.

Lemma fromhex_hexlify (bs : list N) :
  Forall (fun b => b < 256)%N bs -> ObjectId.fromhex (hexlify bs) = Some bs.
Proof.
  induction 1 as [|b bs Hb _ IH]; [reflexivity |].
  assert (H1 : (b / 16 < 16)%N) by (apply N.Div0.div_lt_upper_bound; lia).
  assert (H2 : (b mod 16 < 16)%N) by (apply N.mod_lt; lia).
  cbn [hexlify ObjectId.fromhex].
  rewrite hex_digit_no_space, !hex_value_digit, IH by done.
  do 2 f_equal. rewrite (N.div_mod b 16) at 3 by lia. reflexivity.
Qed.

Lemma to_bytes_bounded (k : nat) (n : N) : Forall (fun b => b < 256)%N (to_bytes k n).
Proof.
  revert n. induction k as [|k IH]; intros n; [constructor |].
  simpl. apply Forall_app. split; [apply IH |].
  constructor; [apply N.mod_lt; lia | constructor].
Qed.

Lemma to_bytes_length (k : nat) (n : N) : length (to_bytes k n) = k.
Proof.
  revert n. induction k as [|k IH]; intros n; [reflexivity |].
  simpl. rewrite length_app, IH. simpl. lia.
Qed.

Lemma to_bytes_value (k : nat) (n : N) :
  ObjectId.bytes_value (to_bytes k n) = (n mod 256 ^ N.of_nat k)%N.
Proof.
  unfold ObjectId.bytes_value. revert n. induction k as [|k IH]; intros n.
  - simpl. by rewrite N.mod_1_r.
  - cbn [to_bytes]. rewrite fold_left_app, IH. cbn [fold_left].
    rewrite Nat2N.inj_succ, N.pow_succ_r'.
    rewrite (N.Div0.mod_mul_r n 256 (256 ^ N.of_nat k)). lia.
Qed.

Lemma hex_render_length (k : nat) (n : N) :
  String.length (ObjectId.hex_render k n) = k.
Proof.
  revert n. induction k as [|k IH]; intros n; [reflexivity |].
  cbn [ObjectId.hex_render].
  assert (L : forall s1 s2, String.length (s1 ++ s2)
                            = (String.length s1 + String.length s2)%nat).
  { intros s1 s2. induction s1 as [|c s1 IH1]; [reflexivity |].
    rewrite string_app_cons. simpl. by rewrite IH1. }
  rewrite L, IH. simpl. lia.
Qed.

Lemma of_str_str (oid : ObjectId.t) :
  (oid < 2 ^ 96)%N -> ObjectId.of_str (ObjectId.str oid) = Some oid.
Proof.
  intros H. unfold ObjectId.of_str, ObjectId.str, ObjectId.byte_length.
  rewrite (proj2 (N.ltb_lt _ _) H), N.mod_small by exact H.
  rewrite hex_render_length. change (2 * 12)%nat with 24%nat. simpl Nat.eqb. cbv iota.
  change 24%nat with (2 * 12)%nat.
  rewrite hex_render_bytes, fromhex_hexlify by apply to_bytes_bounded.
  change (Some (ObjectId.of_bytes (to_bytes 12 oid)) = Some oid).
  f_equal. unfold ObjectId.of_bytes.
  rewrite to_bytes_length, to_bytes_value. simpl Nat.eqb. cbv iota.
  apply N.mod_small. exact H.
Qed.

(** ** Creating and reading back *)

Lemma coll_insert_doc_eq (D : Database) (c : string) (data : document) :
  coll (insert_doc D c data) c
  = (coll D c ++ [<["_id" := VOid (next_oid D)]> data])%list.
Proof. apply coll_insert_eq. Qed.

Lemma coll_insert_doc_ne (D : Database) (c c' : string) (data : document) :
  c <> c' -> coll (insert_doc D c data) c' = coll D c'.
Proof. intros H. unfold coll, insert_doc. simpl. by rewrite lookup_insert_ne. Qed.

Lemma create_document_db (c : string) (data : document) (w : World) (D : Database) :
  db w = Some D ->
  fst (create_document c data w) = inr (ObjectId.str (next_oid D))
  /\ db (snd (create_document c data w)) = Some (insert_doc D c data)
  /\ trace (snd (create_document c data w))
     = (trace w ++ [OpInsertOne c (<["_id" := VOid (next_oid D)]> data)])%list.
Proof. intros HD. rewrite (create_document_run _ _ _ D HD). done. Qed.

Lemma create_player_db (p : PlayerIn.t) (w : World) (D : Database) :
  db w = Some D ->
  fst (create_player p w) = inr (id_response (ObjectId.str (next_oid D)))
  /\ db (snd (create_player p w)) = Some (insert_doc D "player" (PlayerIn.model_dump p))
  /\ trace (snd (create_player p w))
     = (trace w ++ [OpInsertOne "player"
                      (<["_id" := VOid (next_oid D)]> (PlayerIn.model_dump p))])%list.
Proof.
  intros HD. unfold create_player, mbind, M_bind.
  rewrite (create_document_run _ _ _ D HD). done.
Qed.

Lemma create_club_db (c : ClubIn.t) (w : World) (D : Database) :
  db w = Some D ->
  fst (create_club c w) = inr (id_response (ObjectId.str (next_oid D)))
  /\ db (snd (create_club c w)) = Some (insert_doc D "club" (ClubIn.model_dump c))
  /\ trace (snd (create_club c w))
     = (trace w ++ [OpInsertOne "club"
                      (<["_id" := VOid (next_oid D)]> (ClubIn.model_dump c))])%list.
Proof.
  intros HD. unfold create_club, mbind, M_bind.
  rewrite (create_document_run _ _ _ D HD). done.
Qed.

Lemma create_listing_db (l : ListingIn.t) (w : World) (D : Database)
    (oid : ObjectId.t) :
  db w = Some D ->
  ObjectId.of_str (ListingIn.player_id l) = Some oid ->
  opt_str_truthy (ListingIn.from_club_id l) = false
  \/ opt_str_valid (ListingIn.from_club_id l) = true ->
  exists_in D "player" oid = true ->
  fst (create_listing l w) = inr (id_response (ObjectId.str (next_oid D)))
  /\ db (snd (create_listing l w))
     = Some (insert_doc D "transferlisting" (ListingIn.model_dump l))
  /\ trace (snd (create_listing l w))
     = (trace w ++ [OpFindOne "player" oid;
                    OpInsertOne "transferlisting"
                      (<["_id" := VOid (next_oid D)]> (ListingIn.model_dump l))])%list.
Proof.
  intros HD Hoid Hfc Hex.
  assert (Hv : ObjectId.is_valid (ListingIn.player_id l) = true)
    by (apply is_valid_of_str; eauto).
  rewrite create_listing_eq, Hv, HD, Hoid. simpl.
  assert (E : opt_str_truthy (ListingIn.from_club_id l)
              && negb (opt_str_valid (ListingIn.from_club_id l)) = false).
  { destruct Hfc as [-> | ->]; [reflexivity | apply andb_false_r]. }
  rewrite E, Hex. rewrite (create_document_run _ _ _ D) by exact HD. simpl.
  by rewrite <- app_assoc.
Qed.

Lemma create_offer_db (o : OfferIn.t) (w : World) (D : Database)
    (lid cid : ObjectId.t) :
  db w = Some D ->
  ObjectId.of_str (OfferIn.listing_id o) = Some lid ->
  ObjectId.of_str (OfferIn.club_id o) = Some cid ->
  exists_in D "transferlisting" lid = true ->
  exists_in D "club" cid = true ->
  fst (create_offer o w) = inr (id_response (ObjectId.str (next_oid D)))
  /\ db (snd (create_offer o w))
     = Some (insert_doc D "transferoffer" (OfferIn.model_dump o))
  /\ trace (snd (create_offer o w))
     = (trace w ++ [OpFindOne "transferlisting" lid; OpFindOne "club" cid;
                    OpInsertOne "transferoffer"
                      (<["_id" := VOid (next_oid D)]> (OfferIn.model_dump o))])%list.
Proof.
  intros HD Hlid Hcid Hl Hc.
  assert (Hv : ObjectId.is_valid (OfferIn.listing_id o) = true)
    by (apply is_valid_of_str; eauto).
  assert (Hv' : ObjectId.is_valid (OfferIn.club_id o) = true)
    by (apply is_valid_of_str; eauto).
  rewrite create_offer_eq, Hv, Hv', HD, Hlid, Hcid. simpl. rewrite Hl, Hc.
  rewrite (create_document_run _ _ _ D) by exact HD. simpl.
  by rewrite <- !app_assoc.
Qed.

Lemma has_id_inserted (oid : ObjectId.t) (data : document) :
  has_id oid (<["_id" := VOid oid]> data) = true.
Proof.
  unfold has_id. rewrite lookup_insert_eq. simpl. by apply bool_decide_eq_true.
Qed.

Lemma exists_in_insert_doc_new (D : Database) (c : string) (data : document) :
  exists_in (insert_doc D c data) c (next_oid D) = true.
Proof.
  unfold exists_in. rewrite coll_insert_doc_eq, existsb_app. simpl.
  rewrite has_id_inserted. by rewrite orb_true_r.
Qed.

Lemma exists_in_insert_doc_old (D : Database) (c c' : string) (data : document)
    (oid : ObjectId.t) :
  exists_in D c' oid = true -> exists_in (insert_doc D c data) c' oid = true.
Proof.
  unfold exists_in. intros H. destruct (decide (c = c')) as [-> | Hne].
  - rewrite coll_insert_doc_eq, existsb_app, H. reflexivity.
  - by rewrite coll_insert_doc_ne.
Qed.

Lemma serialize_inserted (py_repr : value -> string) (oid : ObjectId.t)
    (data : document) :
  data !! "_id" = None ->
  serialize py_repr (<["_id" := VOid oid]> data)
  = <["id" := VStr (ObjectId.str oid)]> data.
Proof.
  intros H. unfold serialize. simpl.
  rewrite bool_decide_eq_false_2 by apply insert_non_empty. simpl.
  rewrite lookup_insert_eq, delete_insert_id by exact H. reflexivity.
Qed.

Lemma list_players_run (py_repr : value -> string) (w : World) (D : Database) :
  db w = Some D ->
  fst (list_players py_repr w) = inr (serialize py_repr <$> coll D "player").
Proof.
  intros HD. unfold list_players, get_documents, mbind, M_bind, mret, M_ret.
  rewrite HD. reflexivity.
Qed.

Lemma list_clubs_run (py_repr : value -> string) (w : World) (D : Database) :
  db w = Some D ->
  fst (list_clubs py_repr w) = inr (serialize py_repr <$> coll D "club").
Proof.
  intros HD. unfold list_clubs, get_documents, mbind, M_bind, mret, M_ret.
  rewrite HD. reflexivity.
Qed.

(** X1: a player created on an available store is returned by the next
    [GET /players] as the last entry: the dumped model with the returned
    identifier under ["id"], after the entries that were there before. *)
Theorem created_player_is_listed (py_repr : value -> string) (p : PlayerIn.t)
    (w : World) (D : Database) :
  db w = Some D ->
  fst (create_player p w) = inr (id_response (ObjectId.str (next_oid D))) /\
  fst (list_players py_repr (snd (create_player p w)))
  = inr ((serialize py_repr <$> coll D "player")
         ++ [<["id" := VStr (ObjectId.str (next_oid D))]> (PlayerIn.model_dump p)])%list.
Proof.
  intros HD. destruct (create_player_db p w D HD) as (E1 & E2 & _).
  split; [exact E1 |].
  rewrite (list_players_run _ _ _ E2), coll_insert_doc_eq, fmap_app. simpl.
  rewrite serialize_inserted by reflexivity. reflexivity.
Qed.

Lemma created_player_is_listed_witness :
  fst (create_player sample_player fresh_world) = inr (id_response (ObjectId.str 1%N)) /\
  fst (list_players no_repr (snd (create_player sample_player fresh_world)))
  = inr ((serialize no_repr <$> coll empty_db "player")
         ++ [<["id" := VStr (ObjectId.str 1%N)]> (PlayerIn.model_dump sample_player)])%list.
Proof. apply (created_player_is_listed no_repr sample_player fresh_world empty_db eq_refl). Defined.

(** X2: a club created on an available store is returned by the next
    [GET /clubs] as the last entry, with the returned identifier under
    ["id"]. *)
Theorem created_club_is_listed (py_repr : value -> string) (c : ClubIn.t)
    (w : World) (D : Database) :
  db w = Some D ->
  fst (create_club c w) = inr (id_response (ObjectId.str (next_oid D))) /\
  fst (list_clubs py_repr (snd (create_club c w)))
  = inr ((serialize py_repr <$> coll D "club")
         ++ [<["id" := VStr (ObjectId.str (next_oid D))]> (ClubIn.model_dump c)])%list.
Proof.
  intros HD. destruct (create_club_db c w D HD) as (E1 & E2 & _).
  split; [exact E1 |].
  rewrite (list_clubs_run _ _ _ E2), coll_insert_doc_eq, fmap_app. simpl.
  rewrite serialize_inserted by reflexivity. reflexivity.
Qed.

Lemma created_club_is_listed_witness :
  fst (create_club sample_club fresh_world) = inr (id_response (ObjectId.str 1%N)) /\
  fst (list_clubs no_repr (snd (create_club sample_club fresh_world)))
  = inr ((serialize no_repr <$> coll empty_db "club")
         ++ [<["id" := VStr (ObjectId.str 1%N)]> (ClubIn.model_dump sample_club)])%list.
Proof. apply (created_club_is_listed no_repr sample_club fresh_world empty_db eq_refl). Defined.

(** ** References to documents just created *)

(** X3: a listing whose [player_id] is the identifier that [create_player]
    just returned, and whose [from_club_id] is absent, empty or well
    formed, is accepted. *)
Theorem created_player_can_be_listed (p : PlayerIn.t) (l : ListingIn.t)
    (w : World) (D : Database) :
  db w = Some D ->
  (next_oid D < 2 ^ 96)%N ->
  ListingIn.player_id l = ObjectId.str (next_oid D) ->
  opt_str_truthy (ListingIn.from_club_id l) = false
  \/ opt_str_valid (ListingIn.from_club_id l) = true ->
  fst (create_player p w) = inr (id_response (ListingIn.player_id l)) /\
  fst (create_listing l (snd (create_player p w)))
  = inr (id_response (ObjectId.str (N.succ (next_oid D)))).
Proof.
  intros HD Hn Hp Hfc. destruct (create_player_db p w D HD) as (E1 & E2 & _).
  split; [by rewrite Hp |].
  apply (create_listing_db l _ _ (next_oid D) E2); [| exact Hfc |].
  - rewrite Hp. by apply of_str_str.
  - apply exists_in_insert_doc_new.
Qed.

Lemma created_player_can_be_listed_witness :
  fst (create_player sample_player fresh_world)
  = inr (id_response (ListingIn.player_id (sample_listing id1 None))) /\
  fst (create_listing (sample_listing id1 None)
         (snd (create_player sample_player fresh_world)))
  = inr (id_response (ObjectId.str (N.succ (next_oid empty_db)))).
Proof.
  apply (created_player_can_be_listed sample_player (sample_listing id1 None)
           fresh_world empty_db eq_refl);
    [reflexivity | reflexivity | left; reflexivity].
Defined.

(** X4: an offer on an existing listing whose [club_id] is the identifier
    that [create_club] just returned is accepted. *)
Theorem created_club_can_offer (c : ClubIn.t) (o : OfferIn.t) (w : World)
    (D : Database) (lid : ObjectId.t) :
  db w = Some D ->
  (next_oid D < 2 ^ 96)%N ->
  ObjectId.of_str (OfferIn.listing_id o) = Some lid ->
  exists_in D "transferlisting" lid = true ->
  OfferIn.club_id o = ObjectId.str (next_oid D) ->
  fst (create_club c w) = inr (id_response (OfferIn.club_id o)) /\
  fst (create_offer o (snd (create_club c w)))
  = inr (id_response (ObjectId.str (N.succ (next_oid D)))).
Proof.
  intros HD Hn Hlid Hl Hc. destruct (create_club_db c w D HD) as (E1 & E2 & _).
  split; [by rewrite Hc |].
  apply (create_offer_db o _ _ lid (next_oid D) E2); [exact Hlid | | |].
  - rewrite Hc. by apply of_str_str.
  - by apply exists_in_insert_doc_old.
  - apply exists_in_insert_doc_new.
Qed.

Lemma created_club_can_offer_witness :
  fst (create_club sample_club world_with_listing)
  = inr (id_response (OfferIn.club_id (sample_offer id3 id4))) /\
  fst (create_offer (sample_offer id3 id4)
         (snd (create_club sample_club world_with_listing)))
  = inr (id_response
           (ObjectId.str (N.succ (next_oid (default empty_db (db world_with_listing)))))).
Proof.
  apply (created_club_can_offer sample_club (sample_offer id3 id4)
           world_with_listing (default empty_db (db world_with_listing)) 3%N);
    [vm_compute; reflexivity | vm_compute; reflexivity | reflexivity
    | vm_compute; reflexivity | vm_compute; reflexivity].
Defined.

(** X5: [create_listing] never looks the club up: with an existing player
    and any well-formed [from_club_id] the listing is written after the
    single lookup of the player; [create_player] performs no lookup at all,
    whatever its [current_club_id]. *)
Theorem references_not_checked_for_existence :
  (forall l w D oid c,
     db w = Some D ->
     ObjectId.of_str (ListingIn.player_id l) = Some oid ->
     exists_in D "player" oid = true ->
     ListingIn.from_club_id l = Some c ->
     ObjectId.is_valid c = true ->
     fst (create_listing l w) = inr (id_response (ObjectId.str (next_oid D)))
     /\ trace (snd (create_listing l w))
        = (trace w ++ [OpFindOne "player" oid;
                       OpInsertOne "transferlisting"
                         (<["_id" := VOid (next_oid D)]> (ListingIn.model_dump l))])%list) /\
  (forall p w D,
     db w = Some D ->
     fst (create_player p w) = inr (id_response (ObjectId.str (next_oid D)))
     /\ trace (snd (create_player p w))
        = (trace w ++ [OpInsertOne "player"
                         (<["_id" := VOid (next_oid D)]> (PlayerIn.model_dump p))])%list).
Proof.
  split.
  - intros l w D oid c HD Hoid Hex Hfc Hc.
    assert (Hfc' : opt_str_truthy (ListingIn.from_club_id l) = false
                   \/ opt_str_valid (ListingIn.from_club_id l) = true)
      by (right; rewrite Hfc; exact Hc).
    destruct (create_listing_db l w D oid HD Hoid Hfc' Hex) as (E & _ & T).
    split; [exact E | exact T].
  - intros p w D HD. destruct (create_player_db p w D HD) as (E & _ & T).
    split; [exact E | exact T].
Qed.

Lemma references_not_checked_for_existence_witness :
  exists_in (default empty_db (db world_with_player)) "club" 9%N = false /\
  fst (create_listing (sample_listing id1 (Some id9)) world_with_player)
  = inr (id_response id2).
Proof.
  split; [reflexivity |].
  apply (proj1 references_not_checked_for_existence
           (sample_listing id1 (Some id9)) world_with_player
           (default empty_db (db world_with_player)) 1%N id9);
    [vm_compute; reflexivity | reflexivity | vm_compute; reflexivity
    | reflexivity | reflexivity].
Defined.

(** ** The join pipelines, row by row *)

Lemma join_one (D : Database) (from lf as_ : string) (preserve : bool)
    (d : document) :
  join D from lf as_ preserve [d]
  = match matching D from lf d with
    | [] => if preserve then [delete as_ d] else []
    | fs => (fun f => <[as_ := VDoc f]> d) <$> fs
    end.
Proof.
  unfold join, lookup_doc, unwind_doc, matching. simpl.
  rewrite lookup_insert_eq, app_nil_r.
  destruct (List.filter _ (coll D from)) as [|f fs]; simpl.
  - destruct preserve; [by rewrite delete_insert_eq | reflexivity].
  - rewrite insert_insert_eq. f_equal.
    rewrite <- list_fmap_compose. apply list_fmap_ext.
    intros i x _. simpl. by rewrite insert_insert_eq.
Qed.

Lemma join_app (D : Database) (from lf as_ : string) (preserve : bool)
    (l1 l2 : list document) :
  join D from lf as_ preserve (l1 ++ l2)
  = (join D from lf as_ preserve l1 ++ join D from lf as_ preserve l2)%list.
Proof. unfold join. by rewrite !fmap_app, concat_app. Qed.

Lemma join_concat (D : Database) (from lf as_ : string) (preserve : bool)
    (ls : list (list document)) :
  join D from lf as_ preserve (concat ls)
  = concat (join D from lf as_ preserve <$> ls).
Proof.
  induction ls as [|l ls IH]; [reflexivity |].
  simpl. by rewrite join_app, IH.
Qed.

Lemma join_each (D : Database) (from lf as_ : string) (preserve : bool)
    (docs : list document) :
  join D from lf as_ preserve docs
  = concat ((fun d => join D from lf as_ preserve [d]) <$> docs).
Proof.
  induction docs as [|d docs IH]; [reflexivity |].
  change (d :: docs) with ([d] ++ docs)%list at 1.
  rewrite join_app, IH. reflexivity.
Qed.

Lemma matching_insert (D : Database) (from lf k : string) (v : value)
    (d : document) :
  k <> lf -> matching D from lf (<[k := v]> d) = matching D from lf d.
Proof. intros H. unfold matching. by rewrite lookup_insert_ne. Qed.

Lemma listing_rows_join (D : Database) (d : document) :
  join D "club" "from_club_id" "from_club" true
    (join D "player" "player_id" "player" false [d])
  = listing_rows D d.
Proof.
  rewrite join_one. unfold listing_rows.
  destruct (matching D "player" "player_id" d) as [|p ps] eqn:E; [reflexivity |].
  rewrite join_each, <- list_fmap_compose. f_equal.
  apply list_fmap_ext. intros i q _. simpl.
  rewrite join_one, matching_insert by done. reflexivity.
Qed.

Lemma offer_rows_join (D : Database) (d : document) :
  join D "club" "club_id" "club" false
    (join D "transferlisting" "listing_id" "listing" false [d])
  = offer_rows D d.
Proof.
  rewrite join_one. unfold offer_rows.
  destruct (matching D "transferlisting" "listing_id" d) as [|p ps] eqn:E;
    [reflexivity |].
  rewrite join_each, <- list_fmap_compose. f_equal.
  apply list_fmap_ext. intros i q _. simpl.
  rewrite join_one, matching_insert by done.
  destruct (matching D "club" "club_id" d); reflexivity.
Qed.

(** X6: the listings pipeline returns, for each listing and each player
    matching its [player_id], one row per club matching its [from_club_id]
    with the player and the club nested, and a single row without
    [from_club] when no club matches; a listing that no player matches
    yields no row. *)
Theorem listings_pipeline_rows (D : Database) (docs : list document) :
  run_pipeline D listings_pipeline docs = concat (listing_rows D <$> docs).
Proof.
  rewrite listings_pipeline_join.
  rewrite (join_each D "player"), join_concat, <- list_fmap_compose.
  f_equal. apply list_fmap_ext. intros i d _. apply listing_rows_join.
Qed.

(** X7: the offers pipeline returns one row for every pair of a listing
    matching [listing_id] and a club matching [club_id], with both nested;
    an offer with no matching listing or no matching club yields no row. *)
Theorem offers_pipeline_rows (D : Database) (docs : list document) :
  run_pipeline D offers_pipeline docs = concat (offer_rows D <$> docs).
Proof.
  rewrite offers_pipeline_join.
  rewrite (join_each D "transferlisting"), join_concat, <- list_fmap_compose.
  f_equal. apply list_fmap_ext. intros i d _. apply offer_rows_join.
Qed.

(** ** Stores written through the API *)

Lemma written_by_api_empty (D : Database) :
  collections D = ∅ -> written_by_api D.
Proof.
  intros H. unfold written_by_api, coll. rewrite H, !lookup_empty. simpl.
  repeat split; constructor.
Qed.

Lemma written_by_api_player (D : Database) (p : PlayerIn.t) :
  written_by_api D -> written_by_api (insert_doc D "player" (PlayerIn.model_dump p)).
Proof.
  intros (H1 & H2 & H3 & H4). unfold written_by_api.
  rewrite coll_insert_doc_eq, !coll_insert_doc_ne by done.
  repeat split; try done.
  apply Forall_app. split; [done |]. constructor; [| constructor].
  eexists. apply lookup_insert_eq.
Qed.

Lemma written_by_api_club (D : Database) (c : ClubIn.t) :
  written_by_api D -> written_by_api (insert_doc D "club" (ClubIn.model_dump c)).
Proof.
  intros (H1 & H2 & H3 & H4). unfold written_by_api.
  rewrite !coll_insert_doc_ne by done. done.
Qed.

Lemma written_by_api_listing (D : Database) (l : ListingIn.t) :
  written_by_api D ->
  written_by_api (insert_doc D "transferlisting" (ListingIn.model_dump l)).
Proof.
  intros (H1 & H2 & H3 & H4). unfold written_by_api.
  rewrite coll_insert_doc_eq, !coll_insert_doc_ne by done.
  repeat split; try done.
  - apply Forall_app. split; [done |]. constructor; [| constructor].
    eexists. apply lookup_insert_eq.
  - apply Forall_app. split; [done |]. constructor; [| constructor].
    exists (ListingIn.player_id l). rewrite lookup_insert_ne by done. reflexivity.
Qed.

Lemma written_by_api_offer (D : Database) (o : OfferIn.t) :
  written_by_api D ->
  written_by_api (insert_doc D "transferoffer" (OfferIn.model_dump o)).
Proof.
  intros (H1 & H2 & H3 & H4). unfold written_by_api.
  rewrite coll_insert_doc_eq, !coll_insert_doc_ne by done.
  repeat split; try done.
  apply Forall_app. split; [done |]. constructor; [| constructor].
  exists (OfferIn.listing_id o). rewrite lookup_insert_ne by done. reflexivity.
Qed.

(** The database after a create handler ran: as before, or with the dumped
    model inserted. *)
Lemma create_listing_db_cases (l : ListingIn.t) (w : World) (D : Database) :
  db w = Some D ->
  db (snd (create_listing l w)) = Some D
  \/ db (snd (create_listing l w))
     = Some (insert_doc D "transferlisting" (ListingIn.model_dump l)).
Proof.
  intros HD. rewrite create_listing_eq.
  destruct (negb _); [by left |].
  destruct (_ && _); [by left |].
  rewrite HD. destruct (ObjectId.of_str _) as [oid|]; [| by left].
  simpl. destruct (exists_in D "player" oid); [| by left].
  rewrite (create_document_run _ _ _ D) by exact HD. by right.
Qed.

Lemma create_offer_db_cases (o : OfferIn.t) (w : World) (D : Database) :
  db w = Some D ->
  db (snd (create_offer o w)) = Some D
  \/ db (snd (create_offer o w))
     = Some (insert_doc D "transferoffer" (OfferIn.model_dump o)).
Proof.
  intros HD. rewrite create_offer_eq.
  destruct (_ || _); [by left |].
  rewrite HD.
  destruct (ObjectId.of_str (OfferIn.listing_id o)) as [lid|]; [| by left].
  simpl. destruct (exists_in D "transferlisting" lid); [| by left].
  destruct (ObjectId.of_str (OfferIn.club_id o)) as [cid|]; [| by left].
  destruct (exists_in D "club" cid); [| by left].
  rewrite (create_document_run _ _ _ D) by exact HD. by right.
Qed.

Lemma serve_keeps_written_by_api (py_repr : value -> string) (r : request)
    (w : World) (D : Database) :
  db w = Some D -> written_by_api D ->
  exists D', db (serve py_repr r w) = Some D' /\ written_by_api D'.
Proof.
  intros HD Hinv. destruct r as [body|body|body|body| | | |]; simpl.
  - unfold POST_players, route.
    destruct (PlayerIn.validate body) as [loc|p]; [by exists D |].
    destruct (create_player_db p w D HD) as (_ & E & _).
    eexists. split; [exact E |]. by apply written_by_api_player.
  - unfold POST_clubs, route.
    destruct (ClubIn.validate body) as [loc|c]; [by exists D |].
    destruct (create_club_db c w D HD) as (_ & E & _).
    eexists. split; [exact E |]. by apply written_by_api_club.
  - unfold POST_listings, route.
    destruct (ListingIn.validate body) as [loc|l]; [by exists D |].
    destruct (create_listing_db_cases l w D HD) as [E | E];
      eexists; (split; [exact E |]); [done | by apply written_by_api_listing].
  - unfold POST_offers, route.
    destruct (OfferIn.validate body) as [loc|o]; [by exists D |].
    destruct (create_offer_db_cases o w D HD) as [E | E];
      eexists; (split; [exact E |]); [done | by apply written_by_api_offer].
  - exists D. unfold list_players, get_documents, mbind, M_bind.
    rewrite HD. done.
  - exists D. unfold list_clubs, get_documents, mbind, M_bind.
    rewrite HD. done.
  - exists D. rewrite list_listings_run, HD. done.
  - exists D. rewrite list_offers_run, HD. done.
Qed.

Lemma serve_all_keeps_written_by_api (py_repr : value -> string)
    (rs : list request) (w : World) (D : Database) :
  db w = Some D -> written_by_api D ->
  exists D', db (serve_all py_repr rs w) = Some D' /\ written_by_api D'.
Proof.
  revert w D. induction rs as [|r rs IH]; intros w D HD Hinv; [by exists D |].
  destruct (serve_keeps_written_by_api py_repr r w D HD Hinv) as (D1 & H1 & I1).
  exact (IH _ _ H1 I1).
Qed.

Lemma string_references_join_nothing (D : Database) (from lf as_ : string)
    (docs : list document) :
  Forall (string_at lf) docs ->
  Forall keyed_by_oid (coll D from) ->
  join D from lf as_ false docs = [].
Proof.
  intros Hdocs Hids. induction Hdocs as [|d docs [s Hd] _ IH]; [reflexivity |].
  change (d :: docs) with ([d] ++ docs)%list.
  rewrite join_app, IH, (string_reference_joins_nothing D from lf as_ d s Hd Hids).
  reflexivity.
Qed.

(** X8: after any sequence of requests served from an empty store,
    [GET /listings] and [GET /offers] return the empty sequence: every
    listing and offer that the create handlers wrote refers by string to
    documents keyed by identifiers. *)
Theorem api_written_store_views_are_empty (py_repr : value -> string)
    (rs : list request) (w : World) (D : Database) :
  db w = Some D -> collections D = ∅ ->
  fst (list_listings py_repr (serve_all py_repr rs w)) = inr []
  /\ fst (list_offers py_repr (serve_all py_repr rs w)) = inr [].
Proof.
  intros HD Hempty.
  destruct (serve_all_keeps_written_by_api py_repr rs w D HD
              (written_by_api_empty D Hempty)) as (D' & HD' & H1 & H2 & H3 & H4).
  rewrite list_listings_run, list_offers_run, HD'. cbn [fst].
  rewrite listings_pipeline_join, offers_pipeline_join.
  rewrite (string_references_join_nothing D' "player" "player_id" "player" _ H3 H1).
  rewrite (string_references_join_nothing D' "transferlisting" "listing_id" "listing" _ H4 H2).
  split; reflexivity.
Qed.

Lemma api_written_store_views_are_empty_witness :
  fst (list_listings no_repr (serve_all no_repr sample_session fresh_world)) = inr []
  /\ fst (list_offers no_repr (serve_all no_repr sample_session fresh_world)) = inr [].
Proof.
  apply (api_written_store_views_are_empty no_repr sample_session fresh_world
           empty_db eq_refl eq_refl).
Defined.

(** The sample session wrote one document to each collection. *)
Example sample_session_wrote_all :
  List.map (fun c => length (stored_docs (serve_all no_repr sample_session fresh_world) c))
    ["club"; "player"; "transferlisting"; "transferoffer"]
  = [1; 1; 1; 1].
Proof. vm_compute. reflexivity. Qed.

(** ** Request models and collection schemas *)

(** X9: the collection schema of players accepts exactly the bodies that
    the request model accepts and whose age, height and market value are
    within the declared bounds, and yields the same model. *)
Theorem schema_player_is_bounded_model (body : document) (p : PlayerIn.t) :
  Schemas.Player body = inr p
  <-> PlayerIn.validate body = inr p
      /\ opt_ok age_ok (PlayerIn.age p) = true
      /\ opt_ok height_ok (PlayerIn.height_cm p) = true
      /\ opt_ok float_ge0 (PlayerIn.market_value p) = true.
Proof.
  unfold Schemas.Player, PlayerIn.validate, constrain, mbind, sum_bind, mret, sum_ret.
  fold age_ok height_ok.
  destruct (required body "name" as_str); [split; [done | intros [? _]; done] |].
  destruct (required body "position" as_str); [split; [done | intros [? _]; done] |].
  destruct (optional body "age" as_int id None) as [|a];
    [split; [done | intros [? _]; done] |].
  destruct (optional body "nationality" as_str id None);
    [destruct (opt_ok age_ok a); split; try done; intros [? _]; done |].
  destruct (optional body "current_club_id" as_str id None);
    [destruct (opt_ok age_ok a); split; try done; intros [? _]; done |].
  destruct (optional body "height_cm" as_int id None) as [|h];
    [destruct (opt_ok age_ok a); split; try done; intros [? _]; done |].
  destruct (optional body "preferred_foot" as_str id None);
    [destruct (opt_ok age_ok a), (opt_ok height_ok h); split; try done;
     intros [? _]; done |].
  destruct (optional body "bio" as_str id None);
    [destruct (opt_ok age_ok a), (opt_ok height_ok h); split; try done;
     intros [? _]; done |].
  destruct (optional body "skills" as_str_list id (Some []));
    [destruct (opt_ok age_ok a), (opt_ok height_ok h); split; try done;
     intros [? _]; done |].
  destruct (optional body "market_value" as_float id None) as [|m];
    [destruct (opt_ok age_ok a), (opt_ok height_ok h); split; try done;
     intros [? _]; done |].
  destruct (opt_ok age_ok a) eqn:A, (opt_ok height_ok h) eqn:H,
    (opt_ok float_ge0 m) eqn:Mv;
    (split; [intros E; try discriminate E; inversion E; subst; simpl; done
            | intros (E & B1 & B2 & B3); inversion E; subst; simpl in *;
              congruence]).
Qed.

Lemma schema_player_is_bounded_model_witness :
  PlayerIn.validate player_x = inr sample_player
  /\ opt_ok age_ok (PlayerIn.age sample_player) = true
  /\ opt_ok height_ok (PlayerIn.height_cm sample_player) = true
  /\ opt_ok float_ge0 (PlayerIn.market_value sample_player) = true.
Proof.
  apply (proj1 (schema_player_is_bounded_model player_x sample_player)).
  vm_compute. reflexivity.
Defined.

(** X10: the collection schemas of clubs, listings and offers accept
    exactly the bodies that the request models accept and whose budget,
    asking price or offer amount is not negative. *)
Theorem schema_other_models_are_bounded_models :
  (forall body c,
     Schemas.Club body = inr c
     <-> ClubIn.validate body = inr c
         /\ opt_ok number_ge0 (ClubIn.budget c) = true) /\
  (forall body l,
     Schemas.Transferlisting body = inr l
     <-> ListingIn.validate body = inr l
         /\ float_ge0 (ListingIn.asking_price l) = true) /\
  (forall body o,
     Schemas.Transferoffer body = inr o
     <-> OfferIn.validate body = inr o
         /\ float_ge0 (OfferIn.offer_amount o) = true).
Proof.
  split; [| split].
  - intros body c.
    unfold Schemas.Club, ClubIn.validate, constrain, mbind, sum_bind, mret, sum_ret.
    destruct (required body "name" as_str); [split; [done | intros [? _]; done] |].
    destruct (optional body "league" as_str id None);
      [split; [done | intros [? _]; done] |].
    destruct (optional body "country" as_str id None);
      [split; [done | intros [? _]; done] |].
    destruct (optional body "budget" as_float (fmap Float) (Some (Int 0))) as [|b];
      [split; [done | intros [? _]; done] |].
    destruct (optional body "stadium" as_str id None);
      [destruct (opt_ok number_ge0 b); split; try done; intros [? _]; done |].
    destruct (optional body "bio" as_str id None);
      [destruct (opt_ok number_ge0 b); split; try done; intros [? _]; done |].
    destruct (opt_ok number_ge0 b) eqn:B;
      (split; [intros E; try discriminate E; inversion E; subst; simpl; done
              | intros (E & B1); inversion E; subst; simpl in *; congruence]).
  - intros body l.
    unfold Schemas.Transferlisting, ListingIn.validate, constrain, mbind,
      sum_bind, mret, sum_ret.
    destruct (required body "player_id" as_str);
      [split; [done | intros [? _]; done] |].
    destruct (optional body "from_club_id" as_str id None);
      [split; [done | intros [? _]; done] |].
    destruct (required body "asking_price" as_float) as [|a];
      [split; [done | intros [? _]; done] |].
    destruct (defaulted body "status" as_str "open");
      [destruct (float_ge0 a); split; try done; intros [? _]; done |].
    destruct (float_ge0 a) eqn:B;
      (split; [intros E; try discriminate E; inversion E; subst; simpl; done
              | intros (E & B1); inversion E; subst; simpl in *; congruence]).
  - intros body o.
    unfold Schemas.Transferoffer, OfferIn.validate, constrain, mbind,
      sum_bind, mret, sum_ret.
    destruct (required body "listing_id" as_str);
      [split; [done | intros [? _]; done] |].
    destruct (required body "club_id" as_str);
      [split; [done | intros [? _]; done] |].
    destruct (required body "offer_amount" as_float) as [|a];
      [split; [done | intros [? _]; done] |].
    destruct (defaulted body "status" as_str "pending");
      [destruct (float_ge0 a); split; try done; intros [? _]; done |].
    destruct (optional body "message" as_str id None);
      [destruct (float_ge0 a); split; try done; intros [? _]; done |].
    destruct (float_ge0 a) eqn:B;
      (split; [intros E; try discriminate E; inversion E; subst; simpl; done
              | intros (E & B1); inversion E; subst; simpl in *; congruence]).
Qed.

Lemma schema_other_models_are_bounded_models_witness :
  ClubIn.validate roma = inr sample_club
  /\ opt_ok number_ge0 (ClubIn.budget sample_club) = true.
Proof.
  apply (proj1 (proj1 schema_other_models_are_bounded_models roma sample_club)).
  vm_compute. reflexivity.
Defined.

(** ** Required fields *)

Lemma required_missing {A : Type} (body : document) (field : string)
    (conv : value -> option A) :
  body !! field = None -> required body field conv = inl field.
Proof. unfold required. intros ->. reflexivity. Qed.

(** X11: a body that lacks a required field of its model is answered with
    a validation error, and neither the store nor the log of store
    operations changes. *)
Theorem missing_required_field_is_rejected (w : World) (body : document) :
  (body !! "name" = None \/ body !! "position" = None ->
   exists loc, POST_players body w = (inl (RequestValidationError loc), w)) /\
  (body !! "name" = None ->
   POST_clubs body w = (inl (RequestValidationError "name"), w)) /\
  (body !! "player_id" = None \/ body !! "asking_price" = None ->
   exists loc, POST_listings body w = (inl (RequestValidationError loc), w)) /\
  (body !! "listing_id" = None \/ body !! "club_id" = None
   \/ body !! "offer_amount" = None ->
   exists loc, POST_offers body w = (inl (RequestValidationError loc), w)).
Proof.
  split; [| split; [| split]].
  - intros H. unfold POST_players, route, PlayerIn.validate, mbind, sum_bind.
    destruct H as [H | H].
    + rewrite (required_missing _ _ _ H). eauto.
    + destruct (required body "name" as_str); [eauto |].
      rewrite (required_missing _ _ _ H). eauto.
  - intros H. unfold POST_clubs, route, ClubIn.validate, mbind, sum_bind.
    rewrite (required_missing _ _ _ H). reflexivity.
  - intros H. unfold POST_listings, route, ListingIn.validate, mbind, sum_bind.
    destruct H as [H | H].
    + rewrite (required_missing _ _ _ H). eauto.
    + destruct (required body "player_id" as_str); [eauto |].
      destruct (optional body "from_club_id" as_str id None); [eauto |].
      rewrite (required_missing _ _ _ H). eauto.
  - intros H. unfold POST_offers, route, OfferIn.validate, mbind, sum_bind.
    destruct H as [H | [H | H]].
    + rewrite (required_missing _ _ _ H). eauto.
    + destruct (required body "listing_id" as_str); [eauto |].
      rewrite (required_missing _ _ _ H). eauto.
    + destruct (required body "listing_id" as_str); [eauto |].
      destruct (required body "club_id" as_str); [eauto |].
      rewrite (required_missing _ _ _ H). eauto.
Qed.

Lemma missing_required_field_is_rejected_witness :
  POST_clubs ∅ fresh_world = (inl (RequestValidationError "name"), fresh_world)
  /\ exists loc,
       POST_listings (<["player_id" := VStr id1]> ∅) world_with_player
       = (inl (RequestValidationError loc), world_with_player).
Proof.
  split.
  - apply (proj1 (proj2 (missing_required_field_is_rejected fresh_world ∅))).
    reflexivity.
  - apply (proj1 (proj2 (proj2 (missing_required_field_is_rejected
                                  world_with_player (<["player_id" := VStr id1]> ∅))))).
    right. reflexivity.
Defined.

(** ** Stored fields *)

Lemma model_dump_fields :
  (forall p oid,
     dom (<["_id" := VOid oid]> (PlayerIn.model_dump p))
     = list_to_set ["_id"; "name"; "position"; "age"; "nationality";
                    "current_club_id"; "height_cm"; "preferred_foot"; "bio";
                    "skills"; "market_value"] :> gset string) /\
  (forall c oid,
     dom (<["_id" := VOid oid]> (ClubIn.model_dump c))
     = list_to_set ["_id"; "name"; "league"; "country"; "budget"; "stadium";
                    "bio"] :> gset string) /\
  (forall l oid,
     dom (<["_id" := VOid oid]> (ListingIn.model_dump l))
     = list_to_set ["_id"; "player_id"; "from_club_id"; "asking_price";
                    "status"] :> gset string) /\
  (forall o oid,
     dom (<["_id" := VOid oid]> (OfferIn.model_dump o))
     = list_to_set ["_id"; "listing_id"; "club_id"; "offer_amount"; "status";
                    "message"] :> gset string).
Proof.
  repeat split; intros; rewrite dom_insert_L;
    unfold PlayerIn.model_dump, ClubIn.model_dump, ListingIn.model_dump,
      OfferIn.model_dump;
    rewrite dom_list_to_map_L; reflexivity.
Qed.

(** X12: whatever fields the body of a successful create request holds,
    the stored document has exactly the fields that the request model
    declares, and [_id]. *)
Theorem stored_documents_have_the_declared_fields :
  (forall body w r w',
     POST_players body w = (inr r, w') ->
     exists stored,
       appended "player" stored w w' /\
       dom stored
       = list_to_set ["_id"; "name"; "position"; "age"; "nationality";
                      "current_club_id"; "height_cm"; "preferred_foot"; "bio";
                      "skills"; "market_value"] :> gset string) /\
  (forall body w r w',
     POST_clubs body w = (inr r, w') ->
     exists stored,
       appended "club" stored w w' /\
       dom stored
       = list_to_set ["_id"; "name"; "league"; "country"; "budget"; "stadium";
                      "bio"] :> gset string) /\
  (forall body w r w',
     POST_listings body w = (inr r, w') ->
     exists stored,
       appended "transferlisting" stored w w' /\
       dom stored
       = list_to_set ["_id"; "player_id"; "from_club_id"; "asking_price";
                      "status"] :> gset string) /\
  (forall body w r w',
     POST_offers body w = (inr r, w') ->
     exists stored,
       appended "transferoffer" stored w w' /\
       dom stored
       = list_to_set ["_id"; "listing_id"; "club_id"; "offer_amount"; "status";
                      "message"] :> gset string).
Proof.
  destruct model_dump_fields as (F1 & F2 & F3 & F4).
  split; [| split; [| split]]; intros body w r w' H.
  - unfold POST_players, route in H.
    destruct (PlayerIn.validate body) as [loc|p]; [discriminate |].
    apply create_player_appends in H as [oid H]. eauto.
  - unfold POST_clubs, route in H.
    destruct (ClubIn.validate body) as [loc|c]; [discriminate |].
    apply create_club_appends in H as [oid H]. eauto.
  - unfold POST_listings, route in H.
    destruct (ListingIn.validate body) as [loc|l]; [discriminate |].
    apply create_listing_appends in H as [oid H]. eauto.
  - unfold POST_offers, route in H.
    destruct (OfferIn.validate body) as [loc|o]; [discriminate |].
    apply create_offer_appends in H as [oid H]. eauto.
Qed.

Lemma stored_documents_have_the_declared_fields_witness :
  exists stored,
    appended "club" stored fresh_world
      (snd (POST_clubs (<["founded" := VInt 1927]> roma) fresh_world)) /\
    dom stored
    = list_to_set ["_id"; "name"; "league"; "country"; "budget"; "stadium";
                   "bio"] :> gset string.
Proof.
  apply (proj1 (proj2 stored_documents_have_the_declared_fields)
           (<["founded" := VInt 1927]> roma) fresh_world (id_response id1)).
  vm_compute. reflexivity.
Defined.

(** ** A store that was not initialised *)

(** X13: when the store handle was never initialised, a listing or an
    offer whose identifiers pass the format check, [GET /listings] and
    [GET /offers] all fail with the [TypeError] of subscripting [None], and
    the state is as before. *)
Theorem uninitialised_store_is_a_type_error (py_repr : value -> string)
    (w : World) :
  db w = None ->
  (forall l, listing_ids_well_formed l = true ->
             create_listing l w = (inl TypeError, w)) /\
  (forall o, offer_ids_well_formed o = true ->
             create_offer o w = (inl TypeError, w)) /\
  list_listings py_repr w = (inl TypeError, w) /\
  list_offers py_repr w = (inl TypeError, w).
Proof.
  intros HD. split; [| split; [| split]].
  - intros l H. unfold listing_ids_well_formed in H.
    apply andb_true_iff in H as [H1 H2].
    rewrite create_listing_eq, H1, HD. simpl.
    apply orb_true_iff in H2 as [H2 | H2].
    + apply negb_true_iff in H2. rewrite H2. reflexivity.
    + rewrite H2, andb_false_r. reflexivity.
  - intros o H. unfold offer_ids_well_formed in H.
    apply andb_true_iff in H as [H1 H2].
    rewrite create_offer_eq, H1, H2, HD. reflexivity.
  - rewrite list_listings_run, HD. reflexivity.
  - rewrite list_offers_run, HD. reflexivity.
Qed.

Lemma uninitialised_store_is_a_type_error_witness :
  create_listing (sample_listing id1 None) no_store = (inl TypeError, no_store)
  /\ list_listings no_repr no_store = (inl TypeError, no_store).
Proof.
  destruct (uninitialised_store_is_a_type_error no_repr no_store eq_refl)
    as (H1 & _ & H3 & _).
  split; [apply H1; reflexivity | exact H3].
Defined.

(** * The listing view and the order of the store *)

Lemma filter_perm {A : Type} (f : A -> bool) (l l' : list A) :
  l ≡ₚ l' -> List.filter f l ≡ₚ List.filter f l'.
Proof.
  induction 1 as [|x l l' _ IH|x y l|l l' l'' _ IH1 _ IH2]; simpl.
  - reflexivity.
  - destruct (f x); [by constructor | done].
  - destruct (f x), (f y); try reflexivity. apply perm_swap.
  - by etrans.
Qed.

Lemma concat_fmap_pointwise {A B : Type} (f g : A -> list B) (l : list A) :
  (forall x, f x ≡ₚ g x) -> concat (f <$> l) ≡ₚ concat (g <$> l).
Proof.
  intros H. induction l as [|x l IH]; [reflexivity |].
  simpl. by rewrite (H x), IH.
Qed.

Lemma concat_fmap_perm {A B : Type} (f g : A -> list B) (l l' : list A) :
  l ≡ₚ l' -> (forall x, f x ≡ₚ g x) -> concat (f <$> l) ≡ₚ concat (g <$> l').
Proof.
  intros Hl H. rewrite (concat_fmap_pointwise f g l H).
  induction Hl as [|x l l' _ IH|x y l|l l' l'' _ IH1 _ IH2]; simpl.
  - reflexivity.
  - by rewrite IH.
  - rewrite !app_assoc. f_equiv. apply Permutation_app_comm.
  - by etrans.
Qed.

Lemma matching_perm (D D' : Database) (from lf : string) (d : document) :
  coll D' from ≡ₚ coll D from ->
  matching D' from lf d ≡ₚ matching D from lf d.
Proof. intros H. unfold matching. by apply filter_perm. Qed.

Lemma listing_rows_perm (D D' : Database) (d : document) :
  same_documents D D' -> listing_rows D' d ≡ₚ listing_rows D d.
Proof.
  intros (_ & Hp & Hc). unfold listing_rows.
  apply concat_fmap_perm; [by apply matching_perm |].
  intros p.
  pose proof (matching_perm D D' "club" "from_club_id" d Hc) as Hm.
  destruct (matching D' "club" "from_club_id" d) as [|c cs] eqn:E',
    (matching D "club" "from_club_id" d) as [|c0 cs0] eqn:E.
  - reflexivity.
  - by apply Permutation_nil_cons in Hm.
  - symmetry in Hm. by apply Permutation_nil_cons in Hm.
  - by rewrite Hm.
Qed.

Lemma listings_rows_perm (D D' : Database) :
  same_documents D D' ->
  run_pipeline D' listings_pipeline (coll D' "transferlisting")
  ≡ₚ run_pipeline D listings_pipeline (coll D "transferlisting").
Proof.
  intros H.
  assert (R : forall D0 docs,
            run_pipeline D0 listings_pipeline docs = concat (listing_rows D0 <$> docs)).
  { intros D0 docs. rewrite listings_pipeline_join.
    rewrite (join_each D0 "player"), join_concat, <- list_fmap_compose.
    f_equal. apply list_fmap_ext. intros i d _. apply listing_rows_join. }
  rewrite !R. apply concat_fmap_perm; [apply H |].
  intros d. by apply listing_rows_perm.
Qed.

Lemma try_map_perm {A B : Type} (f : A -> exn + B) (l l' : list A) (out : list B) :
  l ≡ₚ l' -> try_map f l = inr out ->
  exists out', try_map f l' = inr out' /\ out' ≡ₚ out.
Proof.
  intros Hl. revert out.
  induction Hl as [|x l l' _ IH|x y l|l l' l'' _ IH1 _ IH2]; intros out H.
  - exists out. done.
  - simpl in *. destruct (f x) as [e|b]; [discriminate |].
    destruct (try_map f l) as [e|bs]; [discriminate |].
    destruct (IH bs eq_refl) as (bs' & -> & Hp).
    inversion H; subst. exists (b :: bs'). split; [done | by constructor].
  - simpl in *. destruct (f y) as [e|b]; [discriminate |].
    destruct (f x) as [e|b']; [discriminate |].
    destruct (try_map f l) as [e|bs]; [discriminate |].
    inversion H; subst. exists (b' :: b :: bs). split; [done | apply perm_swap].
  - destruct (IH1 out H) as (out1 & H1 & P1).
    destruct (IH2 out1 H1) as (out2 & H2 & P2).
    exists out2. split; [done | by etrans].
Qed.

Lemma list_listings_views (py_repr : value -> string) (w : World) (D : Database) :
  db w = Some D ->
  exists out,
    list_listings py_repr w = (inr out, log (OpAggregate "transferlisting") w)
    /\ try_map (listing_view py_repr)
         (run_pipeline D listings_pipeline (coll D "transferlisting")) = inr out.
Proof.
  intros HD. rewrite list_listings_run, HD.
  destruct (try_map_Forall2 _ _ _ _ (listing_view_flattened py_repr)
              (listings_pipeline_shape D (coll D "transferlisting")))
    as (out & E & _).
  exists out. by rewrite E.
Qed.

(** C10: [GET /listings] sends the store a single aggregation and no
    write, and leaves the database as it found it; a second call right
    after the first, or a call on any state holding the same database,
    returns what the first returned; and on a store holding the same
    documents in another order it returns the same entries, in another
    order at most. *)
Theorem list_listings_is_pure_read (py_repr : value -> string) (w : World) :
  db (snd (list_listings py_repr w)) = db w /\
  fst (list_listings py_repr (snd (list_listings py_repr w)))
  = fst (list_listings py_repr w) /\
  (forall w', db w' = db w ->
     fst (list_listings py_repr w') = fst (list_listings py_repr w)) /\
  (exists ops,
     trace (snd (list_listings py_repr w)) = (trace w ++ ops)%list
     /\ existsb is_write ops = false
     /\ (ops = [] \/ ops = [OpAggregate "transferlisting"])) /\
  (forall D,
     db w = Some D ->
     exists out,
       fst (list_listings py_repr w) = inr out /\
       forall w' D',
         db w' = Some D' -> same_documents D D' ->
         exists out', fst (list_listings py_repr w') = inr out' /\ out' ≡ₚ out).
Proof.
  assert (Hsame : forall w', db w' = db w ->
            fst (list_listings py_repr w') = fst (list_listings py_repr w)).
  { intros w' H. rewrite !list_listings_run, H. destruct (db w); reflexivity. }
  assert (Hdb : db (snd (list_listings py_repr w)) = db w).
  { rewrite list_listings_run. destruct (db w) eqn:E; simpl; exact E. }
  split; [exact Hdb |]. split; [apply Hsame, Hdb |]. split; [exact Hsame |].
  split.
  - rewrite list_listings_run. destruct (db w).
    + exists [OpAggregate "transferlisting"]. split; [reflexivity |].
      split; [reflexivity | by right].
    + exists []. split; [by rewrite app_nil_r |]. split; [reflexivity | by left].
  - intros D HD.
    destruct (list_listings_views py_repr w D HD) as (out & E & V).
    exists out. split; [by rewrite E |].
    intros w' D' HD' Hdocs.
    destruct (list_listings_views py_repr w' D' HD') as (out' & E' & V').
    exists out'. split; [by rewrite E' |].
    assert (P : run_pipeline D listings_pipeline (coll D "transferlisting")
                ≡ₚ run_pipeline D' listings_pipeline (coll D' "transferlisting"))
      by (symmetry; by apply listings_rows_perm).
    destruct (try_map_perm _ _ _ _ P V) as (out'' & V'' & P'').
    rewrite V' in V''. by inversion V''; subst.
Qed.

Lemma list_listings_is_pure_read_witness :
  exists out out',
    fst (list_listings no_repr league_world) = inr out
    /\ fst (list_listings no_repr league_world_reordered) = inr out'
    /\ out' ≡ₚ out.
Proof.
  destruct (proj2 (proj2 (proj2 (proj2
              (list_listings_is_pure_read no_repr league_world)))) league_db eq_refl)
    as (out & E & H).
  assert (Hdocs : same_documents league_db league_db_reordered).
  { repeat split; [apply perm_swap | apply perm_swap | reflexivity]. }
  destruct (H league_world_reordered league_db_reordered eq_refl Hdocs)
    as (out' & E' & P).
  exists out, out'. split; [exact E |]. split; [exact E' | exact P].
Defined.

(** On the two sample stores the view has the same two entries, returned
    in opposite orders. *)
Example league_views :
  List.map (fun d : document => d !! "id")
    (match fst (list_listings no_repr league_world) with
     | inr out => out
     | inl _ => []
     end)
  = [Some (VStr "000000000000000000000004"); Some (VStr "000000000000000000000005")]
  /\ List.map (fun d : document => d !! "id")
       (match fst (list_listings no_repr league_world_reordered) with
        | inr out => out
        | inl _ => []
        end)
     = [Some (VStr "000000000000000000000005"); Some (VStr "000000000000000000000004")].
Proof. split; vm_compute; reflexivity. Qed.
